(** * Task scheduling and execution engine (base_classes.py)

    A shallow embedding of [BaseTask] and [TaskScheduler] together with the
    properties of the engine that the specification states.

    Conventions of the embedding.
    - Python objects are records; a method is a computation in the monad
      [M S A] over the object's state [S].
    - [threading.Lock] is a boolean in the state.  It is not re-entrant:
      acquiring a lock that is already held never returns, which the
      outcome [Blocked] records.
    - [datetime] values are counted in microseconds from [datetime.min];
      [timedelta.total_seconds()] and the other floats are exact rationals,
      so rounding is not represented.
    - A [dict] is an association list in insertion order with one entry per
      key, which is what [sorted] and iteration observe. *)

From Stdlib Require Import List String Bool Arith ZArith NArith QArith Lia.
From Stdlib Require Import Permutation Sorted DecimalString.
Import ListNotations.

Close Scope Q_scope.
Local Open Scope string_scope.
Local Open Scope list_scope.

(* ================================================================== *)
(** ** Python values *)

Inductive PyValue : Type :=
| PyNone
| PyBool (b : bool)
| PyInt (z : Z)
| PyStr (s : string).

(** [Dict[str, Any]] *)
Definition PyDict : Type := list (string * PyValue).

Inductive PyExn : Type :=
| TimeoutError (msg : string)
| ValueError (msg : string)
| RuntimeError (msg : string).

(** [str(e)] *)
Definition exn_str (e : PyExn) : string :=
  match e with
  | TimeoutError m | ValueError m | RuntimeError m => m
  end.

(** [str(n)] for an [int] *)
Definition str_of_Z (z : Z) : string := NilZero.string_of_int (Z.to_int z).

Definition datetime : Type := N.
Bind Scope N_scope with datetime.
Definition datetime_min : datetime := 0%N.

(** [(later - earlier).total_seconds()] *)
Definition total_seconds (later earlier : datetime) : Q :=
  Qmake (Z.of_N later - Z.of_N earlier) 1000000.

(* ================================================================== *)
(** ** Insertion-ordered dictionaries with string keys *)

Module Dict.

Definition t (V : Type) : Type := list (string * V).

Definition empty {V : Type} : t V := [].

Fixpoint get {V : Type} (k : string) (d : t V) : option V :=
  match d with
  | [] => None
  | (k', v) :: d' => if String.eqb k k' then Some v else get k d'
  end.

(** [k in d] *)
Definition mem {V : Type} (k : string) (d : t V) : bool :=
  match get k d with Some _ => true | None => false end.

(** [d[k] = v]: an existing key keeps its position *)
Fixpoint set {V : Type} (k : string) (v : V) (d : t V) : t V :=
  match d with
  | [] => [(k, v)]
  | (k', v') :: d' =>
      if String.eqb k k' then (k, v) :: d' else (k', v') :: set k v d'
  end.

(** [del d[k]] (the callers test membership first) *)
Fixpoint del {V : Type} (k : string) (d : t V) : t V :=
  match d with
  | [] => []
  | (k', v') :: d' =>
      if String.eqb k k' then d' else (k', v') :: del k d'
  end.

Definition len {V : Type} (d : t V) : nat := List.length d.

Definition keys {V : Type} (d : t V) : list string := map fst d.

(** [dict(pairs)] *)
Definition of_list {V : Type} (l : list (string * V)) : t V :=
  fold_left (fun d kv => set (fst kv) (snd kv) d) l [].

(** A dictionary holds each key once. *)
Definition wf {V : Type} (d : t V) : Prop := NoDup (keys d).

End Dict.

(* ================================================================== *)
(** ** Outcomes of a method call *)

Inductive Outcome (S A : Type) : Type :=
| Returned (a : A) (s : S)     (* normal return *)
| Raised (e : PyExn) (s : S)   (* an exception propagates to the caller *)
| Blocked (s : S).             (* the caller waits for ever on a held lock *)

Arguments Returned {S A} a s.
Arguments Raised {S A} e s.
Arguments Blocked {S A} s.

Definition M (S A : Type) : Type := S -> Outcome S A.

Definition ret {S A : Type} (a : A) : M S A := fun s => Returned a s.

Definition bind {S A B : Type} (m : M S A) (k : A -> M S B) : M S B :=
  fun s =>
    match m s with
    | Returned a s' => k a s'
    | Raised e s' => Raised e s'
    | Blocked s' => Blocked s'
    end.

Definition raise {S A : Type} (e : PyExn) : M S A := fun s => Raised e s.

Definition gets {S A : Type} (f : S -> A) : M S A := fun s => Returned (f s) s.

Definition modify {S : Type} (f : S -> S) : M S unit :=
  fun s => Returned tt (f s).

(** [try: body / except Exception as e: handler e] *)
Definition try_except {S A : Type} (body : M S A) (handler : PyExn -> M S A)
  : M S A :=
  fun s =>
    match body s with
    | Raised e s' => handler e s'
    | o => o
    end.

(** [try: body / finally: cleanup].  The cleanup runs on a return and on an
    exception; a body that is blocked never reaches it. *)
Definition finally {S A : Type} (body : M S A) (cleanup : M S unit) : M S A :=
  fun s =>
    match body s with
    | Returned a s' =>
        match cleanup s' with
        | Returned _ s'' => Returned a s''
        | Raised e s'' => Raised e s''
        | Blocked s'' => Blocked s''
        end
    | Raised e s' =>
        match cleanup s' with
        | Returned _ s'' => Raised e s''
        | Raised e' s'' => Raised e' s''
        | Blocked s'' => Blocked s''
        end
    | Blocked s' => Blocked s'
    end.

(** The state the object is left in, whatever the outcome. *)
Definition state_of {S A : Type} (o : Outcome S A) : S :=
  match o with
  | Returned _ s | Raised _ s | Blocked s => s
  end.

Declare Scope py_scope.
Delimit Scope py_scope with py.
Notation "x <- m ;; k" := (bind m (fun x => k))
  (at level 61, m at next level, right associativity) : py_scope.
Notation "m ;;; k" := (bind m (fun _ => k))
  (at level 61, right associativity) : py_scope.
Local Open Scope py_scope.

Section Locks.
Variable S : Type.
Variable held : S -> bool.
Variable set_held : bool -> S -> S.

(** [lock.acquire()] on a [threading.Lock] *)
Definition acquire : M S unit :=
  fun s => if held s then Blocked s else Returned tt (set_held true s).

Definition release : M S unit := modify (set_held false).

(** [with lock: body] *)
Definition with_lock {A : Type} (body : M S A) : M S A :=
  acquire ;;; finally body release.
End Locks.

Arguments acquire {S} held set_held.
Arguments release {S} set_held.
Arguments with_lock {S} held set_held {A} body.

(* ================================================================== *)
(** ** Enumerations *)

Inductive TaskStatus : Type :=
| PENDING | RUNNING | COMPLETED | FAILED | TIMEOUT | CANCELLED | PAUSED.

Definition status_eqb (a b : TaskStatus) : bool :=
  match a, b with
  | PENDING, PENDING | RUNNING, RUNNING | COMPLETED, COMPLETED
  | FAILED, FAILED | TIMEOUT, TIMEOUT | CANCELLED, CANCELLED
  | PAUSED, PAUSED => true
  | _, _ => false
  end.

Definition status_value (s : TaskStatus) : string :=
  match s with
  | PENDING => "pending" | RUNNING => "running" | COMPLETED => "completed"
  | FAILED => "failed" | TIMEOUT => "timeout" | CANCELLED => "cancelled"
  | PAUSED => "paused"
  end.

Inductive TaskPriority : Type := LOW | NORMAL | HIGH | CRITICAL.

Definition priority_value (p : TaskPriority) : Z :=
  match p with LOW => 1 | NORMAL => 2 | HIGH => 3 | CRITICAL => 4 end%Z.

(* ================================================================== *)
(** ** TaskResult *)

Module TaskResult.

Record t : Type := mk {
  task_id : string;
  status : TaskStatus;
  data : PyDict;
  error : option string;
  execution_time : Q;
  start_time : option datetime;
  end_time : option datetime;
  progress : Q;
  metadata : PyDict
}.

(** The dictionary of [to_dict]: the status by its value, the other fields
    as they are (the ISO rendering of the two times is not represented). *)
Record as_dict : Type := mk_dict {
  d_task_id : string;
  d_status : string;
  d_data : PyDict;
  d_error : option string;
  d_execution_time : Q;
  d_start_time : option datetime;
  d_end_time : option datetime;
  d_progress : Q;
  d_metadata : PyDict
}.

Definition to_dict (r : t) : as_dict :=
  mk_dict (task_id r) (status_value (status r)) (data r) (error r)
          (execution_time r) (start_time r) (end_time r) (progress r)
          (metadata r).

(** [x[1].end_time or datetime.min], the sort key of the scheduler *)
Definition end_key (r : t) : datetime :=
  match end_time r with Some d => d | None => datetime_min end.

End TaskResult.

(* ================================================================== *)
(** ** The environment of one execution of a task

    [execute()] is abstract and runs on a thread of its own; what the
    supervising thread can observe of it, and of the other threads, is given
    by a [Work] value. *)

Inductive ExecOutcome : Type :=
| ExecReturns (r : option PyDict)   (* [None] is Python's [None] *)
| ExecRaises (e : PyExn).

Record Work : Type := mkWork {
  started_at : datetime;        (* [datetime.now()] when the task starts *)
  finished_at : datetime;       (* [datetime.now()] in the [finally] block *)
  polls_alive : option nat;     (* number of checks that find the worker
                                   thread alive; [None]: it never exits *)
  execute_outcome : ExecOutcome;
  cancel_poll : option nat      (* the check before which another thread
                                   calls [cancel()], if any *)
}.

Definition alive (w : Work) (k : nat) : bool :=
  match polls_alive w with
  | None => true
  | Some d => Nat.ltb k d
  end.

Definition cancel_lands (w : Work) (k : nat) : bool :=
  match cancel_poll w with
  | None => false
  | Some c => Nat.eqb k c
  end.

(** A call made by another thread: its effect on the shared object stays,
    its outcome is that thread's own. *)
Definition concurrently {S A : Type} (op : M S A) : M S unit :=
  fun s => Returned tt (state_of (op s)).

(* ================================================================== *)
(** ** BaseTask *)

Module BaseTask.

Inductive Event : Type :=
| StatusNotified (st : TaskStatus)      (* [_notify_status_change(st)] *)
| ProgressNotified (p : Q)              (* [on_progress(p)] *)
| CompleteNotified (r : TaskResult.t)   (* [on_complete(r)] *)
| ExecuteStarted.                       (* the thread of [execute()] started *)

(** What the constructor fixes. *)
Record Config : Type := mkConfig {
  task_id : string;
  name : string;
  description : string;
  priority : TaskPriority;
  timeout : Z;
  retry_count : Z;
  dependencies : list string
}.

Record t : Type := mk {
  config : Config;
  status : TaskStatus;
  progress : Q;
  start_time : option datetime;
  end_time : option datetime;
  execution_time : Q;
  error : option string;
  result_data : PyDict;
  metadata : PyDict;
  _cancelled : bool;            (* [threading.Event] *)
  _paused : bool;               (* [threading.Event] *)
  _lock : bool;                 (* [threading.Lock]: held or not *)
  events : list Event           (* calls to the observers, oldest first *)
}.

(** [BaseTask.__init__] *)
Definition init (c : Config) : t :=
  mk c PENDING 0 None None 0 None [] [] false false false [].

Definition set_status (v : TaskStatus) (x : t) : t :=
  mk (config x) v (progress x) (start_time x) (end_time x)
     (execution_time x) (error x) (result_data x) (metadata x)
     (_cancelled x) (_paused x) (_lock x) (events x).
Definition set_progress (v : Q) (x : t) : t :=
  mk (config x) (status x) v (start_time x) (end_time x)
     (execution_time x) (error x) (result_data x) (metadata x)
     (_cancelled x) (_paused x) (_lock x) (events x).
Definition set_start_time (v : option datetime) (x : t) : t :=
  mk (config x) (status x) (progress x) v (end_time x)
     (execution_time x) (error x) (result_data x) (metadata x)
     (_cancelled x) (_paused x) (_lock x) (events x).
Definition set_end_time (v : option datetime) (x : t) : t :=
  mk (config x) (status x) (progress x) (start_time x) v
     (execution_time x) (error x) (result_data x) (metadata x)
     (_cancelled x) (_paused x) (_lock x) (events x).
Definition set_execution_time (v : Q) (x : t) : t :=
  mk (config x) (status x) (progress x) (start_time x) (end_time x)
     v (error x) (result_data x) (metadata x)
     (_cancelled x) (_paused x) (_lock x) (events x).
Definition set_error (v : option string) (x : t) : t :=
  mk (config x) (status x) (progress x) (start_time x) (end_time x)
     (execution_time x) v (result_data x) (metadata x)
     (_cancelled x) (_paused x) (_lock x) (events x).
Definition set_result_data (v : PyDict) (x : t) : t :=
  mk (config x) (status x) (progress x) (start_time x) (end_time x)
     (execution_time x) (error x) v (metadata x)
     (_cancelled x) (_paused x) (_lock x) (events x).
Definition set_metadata (v : PyDict) (x : t) : t :=
  mk (config x) (status x) (progress x) (start_time x) (end_time x)
     (execution_time x) (error x) (result_data x) v
     (_cancelled x) (_paused x) (_lock x) (events x).
Definition set_cancelled (v : bool) (x : t) : t :=
  mk (config x) (status x) (progress x) (start_time x) (end_time x)
     (execution_time x) (error x) (result_data x) (metadata x)
     v (_paused x) (_lock x) (events x).
Definition set_paused (v : bool) (x : t) : t :=
  mk (config x) (status x) (progress x) (start_time x) (end_time x)
     (execution_time x) (error x) (result_data x) (metadata x)
     (_cancelled x) v (_lock x) (events x).
Definition set_lock (v : bool) (x : t) : t :=
  mk (config x) (status x) (progress x) (start_time x) (end_time x)
     (execution_time x) (error x) (result_data x) (metadata x)
     (_cancelled x) (_paused x) v (events x).
Definition emit (e : Event) (x : t) : t :=
  mk (config x) (status x) (progress x) (start_time x) (end_time x)
     (execution_time x) (error x) (result_data x) (metadata x)
     (_cancelled x) (_paused x) (_lock x) (events x ++ [e]).

(** [with self._lock: body] *)
Definition locked {A : Type} (body : M t A) : M t A :=
  with_lock _lock set_lock body.

(** The observers are outside the model: a call to one is recorded in
    [events], and an observer neither fails nor touches the task. *)
Definition _notify_status_change (st : TaskStatus) : M t unit :=
  modify (emit (StatusNotified st)).

(** [if error:] on an [Optional[str]] *)
Definition truthy (e : option string) : bool :=
  match e with
  | None => false
  | Some m => negb (String.eqb m "")
  end.

Definition _set_status (st : TaskStatus) (err : option string) : M t unit :=
  locked (
    modify (set_status st) ;;;
    (if truthy err then modify (set_error err) else ret tt)) ;;;
  _notify_status_change st.

Definition _create_result : M t TaskResult.t :=
  gets (fun x =>
    TaskResult.mk (task_id (config x)) (status x) (result_data x) (error x)
                  (execution_time x) (start_time x) (end_time x)
                  (progress x) (metadata x)).

Definition cancel : M t unit :=
  locked (
    st <- gets status ;;
    if status_eqb st RUNNING then modify (set_cancelled true)
    else if status_eqb st PENDING then _set_status CANCELLED None
    else ret tt).

Definition pause : M t unit :=
  locked (
    st <- gets status ;;
    if status_eqb st RUNNING then
      modify (set_paused true) ;;; _set_status PAUSED None
    else ret tt).

Definition resume : M t unit :=
  locked (
    st <- gets status ;;
    if status_eqb st PAUSED then
      modify (set_paused false) ;;; _set_status RUNNING None
    else ret tt).

(** [max(0.0, min(100.0, progress))] *)
Definition clamp (p : Q) : Q :=
  let m := if Qle_bool 100 p then 100%Q else p in
  if Qle_bool m 0 then 0%Q else m.

Definition update_progress (p : Q) (message : string) : M t unit :=
  locked (
    modify (set_progress (clamp p)) ;;;
    (if String.eqb message "" then ret tt
     else
       md <- gets metadata ;;
       modify (set_metadata (Dict.set "progress_message" (PyStr message) md)))) ;;;
  p' <- gets progress ;;
  modify (emit (ProgressNotified p')).

Definition is_cancelled : M t bool := gets _cancelled.

Record Info : Type := mkInfo {
  i_task_id : string;
  i_name : string;
  i_description : string;
  i_priority : Z;
  i_status : string;
  i_progress : Q;
  i_timeout : Z;
  i_retry_count : Z;
  i_dependencies : list string;
  i_start_time : option datetime;
  i_end_time : option datetime;
  i_execution_time : Q;
  i_error : option string;
  i_metadata : PyDict
}.

Definition get_info : M t Info :=
  locked (
    gets (fun x =>
      let c := config x in
      mkInfo (task_id c) (name c) (description c)
             (priority_value (priority c)) (status_value (status x))
             (progress x) (timeout c) (retry_count c) (dependencies c)
             (start_time x) (end_time x) (execution_time x) (error x)
             (metadata x))).

(** *** The execution guard *)

(** After the wait: time-out, the error of the work, or its result. *)
Definition after_wait (w : Work) (k : nat) : M t (option PyDict) :=
  if alive w k then
    tmo <- gets (fun x => timeout (config x)) ;;
    raise (TimeoutError ("Tarea excedió timeout de " ++ str_of_Z tmo ++ "s"))
  else
    match execute_outcome w with
    | ExecRaises e => raise e
    | ExecReturns r => ret r
    end.

(** [while thread.is_alive() and elapsed_time < self.timeout]: [k] counts
    the checks made so far ([elapsed_time] is [k] tenths of a second) and
    [budget] the checks that the time-out still allows. *)
Fixpoint wait_loop (w : Work) (k budget : nat) : M t (option PyDict) :=
  match budget with
  | O => after_wait w k
  | S budget' =>
      if alive w k then
        (if cancel_lands w k then concurrently cancel else ret tt) ;;;
        c <- gets _cancelled ;;
        if c then ret (Some []) else wait_loop w (S k) budget'
      else after_wait w k
  end.

(** Checks of 0.1 s that fit in a time-out of [tmo] seconds. *)
Definition polls_allowed (tmo : Z) : nat := Z.to_nat (10 * tmo).

Definition _execute_with_timeout (w : Work) : M t (option PyDict) :=
  modify (emit ExecuteStarted) ;;;
  tmo <- gets (fun x => timeout (config x)) ;;
  wait_loop w 0 (polls_allowed tmo).

(** [result_data or {}] *)
Definition or_empty (r : option PyDict) : PyDict :=
  match r with Some d => d | None => [] end.

(** *** run *)

(** The [finally] block of [run] *)
Definition stamp_end (w : Work) : M t unit :=
  locked (
    modify (set_end_time (Some (finished_at w))) ;;;
    st <- gets start_time ;;
    match st with
    | Some s0 => modify (set_execution_time (total_seconds (finished_at w) s0))
    | None => ret tt
    end).

(** The [try] block of [run] with its two handlers; [Some r] is a
    [return r] from inside the block. *)
Definition guarded (w : Work) : M t (option TaskResult.t) :=
  try_except
    (c <- gets _cancelled ;;
     if c then
       _set_status CANCELLED None ;;; r <- _create_result ;; ret (Some r)
     else
       result_data <- _execute_with_timeout w ;;
       c' <- gets _cancelled ;;
       if c' then
         _set_status CANCELLED None ;;; r <- _create_result ;; ret (Some r)
       else
         locked (
           modify (set_result_data (or_empty result_data)) ;;;
           modify (set_progress 100) ;;;
           _set_status COMPLETED None) ;;;
         ret None)
    (fun e =>
       match e with
       | TimeoutError _ =>
           _set_status TIMEOUT (Some "Tiempo de ejecución excedido") ;;;
           ret None
       | _ =>
           nm <- gets (fun x => name (config x)) ;;
           _set_status FAILED
             (Some ("Error en tarea " ++ nm ++ ": " ++ exn_str e)%string) ;;;
           ret None
       end).

Definition run (w : Work) : M t TaskResult.t :=
  entry <- locked (
    st <- gets status ;;
    if negb (status_eqb st PENDING) then
      r <- _create_result ;; ret (Some r)
    else
      modify (set_status RUNNING) ;;;
      modify (set_start_time (Some (started_at w))) ;;;
      modify (set_progress 0) ;;;
      ret None) ;;
  match entry with
  | Some r => ret r
  | None =>
      st <- gets status ;;
      _notify_status_change st ;;;
      early <- finally (guarded w) (stamp_end w) ;;
      match early with
      | Some r => ret r
      | None =>
          result <- _create_result ;;
          modify (emit (CompleteNotified result)) ;;;
          ret result
      end
  end.


End BaseTask.

(* ================================================================== *)
(** ** Futures of the worker pool *)

Module Future.

Inductive t : Type := PENDING_ | RUNNING_ | CANCELLED_ | FINISHED_.

(** [Future.cancel()]: succeeds unless the call is running or done. *)
Definition cancel (f : t) : bool * t :=
  match f with
  | PENDING_ | CANCELLED_ => (true, CANCELLED_)
  | RUNNING_ => (false, RUNNING_)
  | FINISHED_ => (false, FINISHED_)
  end.

End Future.

(* ================================================================== *)
(** ** queue.PriorityQueue of [(priority_value, timestamp, task_id)] *)

Module PriorityQueue.

Definition entry : Type := Z * datetime * string.

Definition entry_id (e : entry) : string := snd e.

(** Tuple comparison [a <= b] *)
Definition entry_leb (a b : entry) : bool :=
  let '(pa, ta, ia) := a in
  let '(pb, tb, ib) := b in
  if (pa <? pb)%Z then true
  else if (pb <? pa)%Z then false
  else if (ta <? tb)%N then true
  else if (tb <? ta)%N then false
  else String.leb ia ib.

(** The entries, least first: the order in which [get] hands them out. *)
Definition t : Type := list entry.

Definition empty : t := [].

Fixpoint put (e : entry) (q : t) : t :=
  match q with
  | [] => [e]
  | x :: q' => if entry_leb x e then x :: put e q' else e :: x :: q'
  end.

Definition get_nowait (q : t) : option (entry * t) :=
  match q with
  | [] => None
  | x :: q' => Some (x, q')
  end.

Definition qsize (q : t) : nat := List.length q.

Definition ids (q : t) : list string := map entry_id q.

End PriorityQueue.

(* ================================================================== *)
(** ** TaskScheduler *)

Module Stats.
Record t : Type := mk {
  total_tasks : Z;
  completed_tasks : Z;
  failed_tasks : Z;
  cancelled_tasks : Z;
  average_execution_time : Q
}.
End Stats.

Module TaskScheduler.

Record t : Type := mk {
  max_workers : nat;
  queue_critical : PriorityQueue.t;
  queue_high : PriorityQueue.t;
  queue_normal : PriorityQueue.t;
  queue_low : PriorityQueue.t;
  stop_event : bool;
  tasks : Dict.t BaseTask.t;
  running_tasks : Dict.t Future.t;
  completed_tasks : Dict.t TaskResult.t;
  stats : Stats.t;
  _lock : bool;                  (* [threading.Lock]: held or not *)
  submitted : list string        (* ids handed to [executor.submit], oldest first *)
}.

(** [TaskScheduler.__init__] *)
Definition init (workers : nat) : t :=
  mk workers [] [] [] [] false [] [] [] (Stats.mk 0 0 0 0 0) false [].

(** [self.task_queues[priority]] *)
Definition task_queues (s : t) (p : TaskPriority) : PriorityQueue.t :=
  match p with
  | CRITICAL => queue_critical s
  | HIGH => queue_high s
  | NORMAL => queue_normal s
  | LOW => queue_low s
  end.

Definition set_queue (p : TaskPriority) (q : PriorityQueue.t) (s : t) : t :=
  mk (max_workers s)
     (match p with CRITICAL => q | _ => queue_critical s end)
     (match p with HIGH => q | _ => queue_high s end)
     (match p with NORMAL => q | _ => queue_normal s end)
     (match p with LOW => q | _ => queue_low s end)
     (stop_event s) (tasks s) (running_tasks s) (completed_tasks s)
     (stats s) (_lock s) (submitted s).
Definition set_tasks (v : Dict.t BaseTask.t) (s : t) : t :=
  mk (max_workers s) (queue_critical s) (queue_high s) (queue_normal s)
     (queue_low s) (stop_event s) v (running_tasks s) (completed_tasks s)
     (stats s) (_lock s) (submitted s).
Definition set_running_tasks (v : Dict.t Future.t) (s : t) : t :=
  mk (max_workers s) (queue_critical s) (queue_high s) (queue_normal s)
     (queue_low s) (stop_event s) (tasks s) v (completed_tasks s)
     (stats s) (_lock s) (submitted s).
Definition set_completed_tasks (v : Dict.t TaskResult.t) (s : t) : t :=
  mk (max_workers s) (queue_critical s) (queue_high s) (queue_normal s)
     (queue_low s) (stop_event s) (tasks s) (running_tasks s) v
     (stats s) (_lock s) (submitted s).
Definition set_stats (v : Stats.t) (s : t) : t :=
  mk (max_workers s) (queue_critical s) (queue_high s) (queue_normal s)
     (queue_low s) (stop_event s) (tasks s) (running_tasks s)
     (completed_tasks s) v (_lock s) (submitted s).
Definition set_lock (v : bool) (s : t) : t :=
  mk (max_workers s) (queue_critical s) (queue_high s) (queue_normal s)
     (queue_low s) (stop_event s) (tasks s) (running_tasks s)
     (completed_tasks s) (stats s) v (submitted s).
Definition set_submitted (v : list string) (s : t) : t :=
  mk (max_workers s) (queue_critical s) (queue_high s) (queue_normal s)
     (queue_low s) (stop_event s) (tasks s) (running_tasks s)
     (completed_tasks s) (stats s) (_lock s) v.

(** [with self._lock: body] *)
Definition locked {A : Type} (body : M t A) : M t A :=
  with_lock _lock set_lock body.

(** A method call on the task object that [tasks] holds under [task_id]:
    the dictionary holds a reference, so it sees what the call does. *)
Definition store (task_id : string) (task : BaseTask.t) (s : t) : t :=
  if Dict.mem task_id (tasks s)
  then set_tasks (Dict.set task_id task (tasks s)) s
  else s.

Definition on_task {A : Type} (task_id : string) (task : BaseTask.t)
           (op : M BaseTask.t A) : M t A :=
  fun s =>
    match op task with
    | Returned a task' => Returned a (store task_id task' s)
    | Raised e task' => Raised e (store task_id task' s)
    | Blocked task' => Blocked (store task_id task' s)
    end.

(** *** add_task *)

(** The loop over [task.dependencies] *)
Fixpoint check_dependencies (deps : list string) : M t unit :=
  match deps with
  | [] => ret tt
  | dep_id :: rest =>
      s <- gets (fun s => s) ;;
      if negb (Dict.mem dep_id (tasks s))
         && negb (Dict.mem dep_id (completed_tasks s))
      then raise (ValueError ("Dependencia no encontrada: " ++ dep_id))
      else check_dependencies rest
  end.

Definition count_submitted (st : Stats.t) : Stats.t :=
  Stats.mk (Stats.total_tasks st + 1) (Stats.completed_tasks st)
           (Stats.failed_tasks st) (Stats.cancelled_tasks st)
           (Stats.average_execution_time st).

(** [now] is the value of [time.time()]. *)
Definition add_task (task : BaseTask.t) (now : datetime) : M t string :=
  let c := BaseTask.config task in
  locked (
    check_dependencies (BaseTask.dependencies c) ;;;
    modify (fun s => set_tasks (Dict.set (BaseTask.task_id c) task (tasks s)) s) ;;;
    modify (fun s => set_stats (count_submitted (stats s)) s) ;;;
    modify (fun s =>
      set_queue (BaseTask.priority c)
        (PriorityQueue.put
           (priority_value (BaseTask.priority c), now, BaseTask.task_id c)
           (task_queues s (BaseTask.priority c))) s) ;;;
    ret (BaseTask.task_id c)).

(** *** Accessors and control *)

Definition get_task (task_id : string) : M t (option BaseTask.t) :=
  gets (fun s => Dict.get task_id (tasks s)).

Definition get_task_result (task_id : string) : M t (option TaskResult.t) :=
  gets (fun s => Dict.get task_id (completed_tasks s)).

Definition remove_task (task_id : string) : M t bool :=
  locked (
    s <- gets (fun s => s) ;;
    (match Dict.get task_id (running_tasks s) with
     | Some _ =>
         modify (fun s => set_running_tasks (Dict.del task_id (running_tasks s)) s)
     | None => ret tt
     end) ;;;
    s' <- gets (fun s => s) ;;
    match Dict.get task_id (tasks s') with
    | Some task =>
        on_task task_id task BaseTask.cancel ;;;
        modify (fun s => set_tasks (Dict.del task_id (tasks s)) s) ;;;
        ret true
    | None => ret false
    end).

Definition cancel_task (task_id : string) : M t bool :=
  locked (
    s <- gets (fun s => s) ;;
    done <- match Dict.get task_id (running_tasks s) with
            | Some future =>
                if fst (Future.cancel future) then
                  modify (fun s => set_running_tasks (Dict.del task_id (running_tasks s)) s) ;;;
                  ret true
                else ret false
            | None => ret false
            end ;;
    if done then ret true
    else
      s' <- gets (fun s => s) ;;
      match Dict.get task_id (tasks s') with
      | Some task => on_task task_id task BaseTask.cancel ;;; ret true
      | None => ret false
      end).

(** *** The dispatch loop *)

Fixpoint deps_completed (s : t) (deps : list string) : bool :=
  match deps with
  | [] => true
  | dep_id :: rest =>
      match Dict.get dep_id (tasks s) with
      | Some dep_task =>
          if negb (status_eqb (BaseTask.status dep_task) COMPLETED)
          then false
          else deps_completed s rest
      | None =>
          if negb (Dict.mem dep_id (completed_tasks s))
          then false
          else deps_completed s rest
      end
  end.

Definition _dependencies_completed (s : t) (task : BaseTask.t) : bool :=
  deps_completed s (BaseTask.dependencies (BaseTask.config task)).

(** [future = self.executor.submit(self._execute_task, task)] followed by
    [self.running_tasks[task_id] = future] *)
Definition submit (task_id : string) (s : t) : t :=
  set_submitted (submitted s ++ [task_id])
    (set_running_tasks (Dict.set task_id Future.PENDING_ (running_tasks s)) s).

(** The [while] loop of [_process_priority_queue]; [q] is what the queue
    of [priority] still holds.  An entry is put back only on the path
    that leaves the loop, so the loop runs once per entry at most. *)
Fixpoint drain (priority : TaskPriority) (now : datetime)
         (q : PriorityQueue.t) (s : t) : t :=
  match q with
  | [] => set_queue priority [] s
  | (_, _, task_id) :: rest =>
      if Nat.ltb (Dict.len (running_tasks s)) (max_workers s) then
        match Dict.get task_id (tasks s) with
        | None => drain priority now rest s
        | Some task =>
            if negb (_dependencies_completed s task) then
              set_queue priority
                (PriorityQueue.put (priority_value priority, now, task_id) rest) s
            else drain priority now rest (submit task_id s)
        end
      else set_queue priority q s
  end.

Definition _process_priority_queue (priority : TaskPriority) (now : datetime)
           (s : t) : t :=
  drain priority now (task_queues s priority) s.

(** *** Worker completion *)

Definition count_result (st : TaskStatus) (x : Stats.t) : Stats.t :=
  if status_eqb st COMPLETED then
    Stats.mk (Stats.total_tasks x) (Stats.completed_tasks x + 1)
             (Stats.failed_tasks x) (Stats.cancelled_tasks x)
             (Stats.average_execution_time x)
  else if status_eqb st FAILED then
    Stats.mk (Stats.total_tasks x) (Stats.completed_tasks x)
             (Stats.failed_tasks x + 1) (Stats.cancelled_tasks x)
             (Stats.average_execution_time x)
  else if status_eqb st CANCELLED then
    Stats.mk (Stats.total_tasks x) (Stats.completed_tasks x)
             (Stats.failed_tasks x) (Stats.cancelled_tasks x + 1)
             (Stats.average_execution_time x)
  else x.

Definition update_average (execution_time : Q) (x : Stats.t) : Stats.t :=
  if (0 <? Stats.completed_tasks x)%Z then
    let total_time :=
      (Stats.average_execution_time x
         * inject_Z (Stats.completed_tasks x - 1) + execution_time)%Q in
    Stats.mk (Stats.total_tasks x) (Stats.completed_tasks x)
             (Stats.failed_tasks x) (Stats.cancelled_tasks x)
             (total_time / inject_Z (Stats.completed_tasks x))%Q
  else x.

(** The block of [_execute_task] that runs under the scheduler's lock
    once [task.run()] has returned [result] *)
Definition record_result (task_id : string) (result : TaskResult.t) : M t unit :=
  locked (
    modify (fun s =>
      if Dict.mem task_id (tasks s)
      then set_tasks (Dict.del task_id (tasks s)) s else s) ;;;
    modify (fun s =>
      set_completed_tasks (Dict.set task_id result (completed_tasks s)) s) ;;;
    modify (fun s =>
      set_stats (count_result (TaskResult.status result) (stats s)) s) ;;;
    modify (fun s =>
      set_stats (update_average (TaskResult.execution_time result) (stats s)) s)).

Definition _execute_task (task : BaseTask.t) (w : Work) : M t TaskResult.t :=
  let task_id := BaseTask.task_id (BaseTask.config task) in
  finally
    (try_except
       (result <- on_task task_id task (BaseTask.run w) ;;
        record_result task_id result ;;;
        ret result)
       (fun e =>
          ret (TaskResult.mk task_id FAILED [] (Some (exn_str e)) 0 None None 0 [])))
    (locked (
       modify (fun s =>
         if Dict.mem task_id (running_tasks s)
         then set_running_tasks (Dict.del task_id (running_tasks s)) s
         else s))).

(** *** Retention of results *)

(** [sorted(items, key=lambda x: x[1].end_time or datetime.min,
    reverse=True)]: latest first, equal keys in their original order. *)
Fixpoint insert_desc (x : string * TaskResult.t)
         (l : list (string * TaskResult.t)) : list (string * TaskResult.t) :=
  match l with
  | [] => [x]
  | y :: l' =>
      if (TaskResult.end_key (snd x) <? TaskResult.end_key (snd y))%N
      then y :: insert_desc x l'
      else x :: y :: l'
  end.

Definition sorted_by_end_time_desc (l : list (string * TaskResult.t))
  : list (string * TaskResult.t) :=
  fold_right insert_desc [] l.

Definition _cleanup_completed_tasks (max_completed : nat) : M t unit :=
  locked (
    s <- gets (fun s => s) ;;
    if Nat.ltb max_completed (Dict.len (completed_tasks s)) then
      let sorted_tasks := sorted_by_end_time_desc (completed_tasks s) in
      modify (set_completed_tasks (Dict.of_list (firstn max_completed sorted_tasks)))
    else ret tt).

(** One turn of [_scheduler_loop]: the four queues, highest priority
    first, then the clean-up with its default bound. *)
Definition sweep (now : datetime) (s : t) : t :=
  fold_left
    (fun s p => if stop_event s then s else _process_priority_queue p now s)
    [CRITICAL; HIGH; NORMAL; LOW] s.

Definition _scheduler_cycle (now : datetime) : M t unit :=
  modify (sweep now) ;;; _cleanup_completed_tasks 1000.

(** *** get_all_tasks *)

Inductive Entry : Type :=
| TaskEntry (i : BaseTask.Info)             (* [task.get_info()] *)
| ResultEntry (d : TaskResult.as_dict).     (* [result.to_dict()] *)

(** [for task_id, task in self.tasks.items()] *)
Fixpoint collect_tasks (l : list (string * BaseTask.t)) (all_tasks : Dict.t Entry)
  : M t (Dict.t Entry) :=
  match l with
  | [] => ret all_tasks
  | (task_id, task) :: l' =>
      info <- on_task task_id task BaseTask.get_info ;;
      collect_tasks l' (Dict.set task_id (TaskEntry info) all_tasks)
  end.

(** [for task_id, result in sorted_completed] *)
Definition collect_results (l : list (string * TaskResult.t))
           (all_tasks : Dict.t Entry) : Dict.t Entry :=
  fold_left
    (fun d kv => Dict.set (fst kv) (ResultEntry (TaskResult.to_dict (snd kv))) d)
    l all_tasks.

Definition get_all_tasks : M t (Dict.t Entry) :=
  locked (
    s <- gets (fun s => s) ;;
    all_tasks <- collect_tasks (tasks s) [] ;;
    let sorted_completed :=
      firstn 100 (sorted_by_end_time_desc (completed_tasks s)) in
    ret (collect_results sorted_completed all_tasks)).

End TaskScheduler.

(* ================================================================== *)
(** ** TaskScheduler: the remaining control operations *)

Module TaskSchedulerControl.
Import TaskScheduler.

Definition pause_task (task_id : string) : M t bool :=
  locked (
    s <- gets (fun s => s) ;;
    match Dict.get task_id (tasks s) with
    | Some task => on_task task_id task BaseTask.pause ;;; ret true
    | None => ret false
    end).

Definition resume_task (task_id : string) : M t bool :=
  locked (
    s <- gets (fun s => s) ;;
    match Dict.get task_id (tasks s) with
    | Some task => on_task task_id task BaseTask.resume ;;; ret true
    | None => ret false
    end).

(** [for task_id, future in list(self.running_tasks.items())]: the future
    is cancelled, then the task if [tasks] still has it; an exception in
    one turn is logged and the loop goes on. *)
Fixpoint cancel_each (l : list (string * Future.t)) : M t unit :=
  match l with
  | [] => ret tt
  | (task_id, future) :: l' =>
      try_except
        (modify (fun s =>
           if Dict.mem task_id (running_tasks s)
           then set_running_tasks
                  (Dict.set task_id (snd (Future.cancel future)) (running_tasks s)) s
           else s) ;;;
         s <- gets (fun s => s) ;;
         match Dict.get task_id (tasks s) with
         | Some task => on_task task_id task BaseTask.cancel
         | None => ret tt
         end)
        (fun _ => ret tt) ;;;
      cancel_each l'
  end.

Definition _cancel_running_tasks : M t unit :=
  locked (
    s <- gets (fun s => s) ;;
    cancel_each (running_tasks s) ;;;
    modify (set_running_tasks [])).

End TaskSchedulerControl.

(* ================================================================== *)
(** ** create_task_chain *)

(** [task.dependencies.append(dep)] *)
Definition append_dependency (dep : string) (task : BaseTask.t) : BaseTask.t :=
  let c := BaseTask.config task in
  BaseTask.mk
    (BaseTask.mkConfig (BaseTask.task_id c) (BaseTask.name c)
       (BaseTask.description c) (BaseTask.priority c) (BaseTask.timeout c)
       (BaseTask.retry_count c) (BaseTask.dependencies c ++ [dep]))
    (BaseTask.status task) (BaseTask.progress task) (BaseTask.start_time task)
    (BaseTask.end_time task) (BaseTask.execution_time task)
    (BaseTask.error task) (BaseTask.result_data task) (BaseTask.metadata task)
    (BaseTask._cancelled task) (BaseTask._paused task) (BaseTask._lock task)
    (BaseTask.events task).

(** The loop of [create_task_chain] on the one scheduler of the process:
    [prev] is [task_ids[i-1]], and each task comes with the reading of
    [time.time()] that its [add_task] makes. *)
Fixpoint chain_from (prev : option string) (tasks : list (BaseTask.t * datetime))
         (task_ids : list string) : M TaskScheduler.t (list string) :=
  match tasks with
  | [] => ret task_ids
  | (task, now) :: rest =>
      let task' :=
        match prev with
        | Some p => append_dependency p task
        | None => task
        end in
      task_id <- TaskScheduler.add_task task' now ;;
      chain_from (Some task_id) rest (task_ids ++ [task_id])
  end.

Definition create_task_chain (tasks : list (BaseTask.t * datetime))
  : M TaskScheduler.t (list string) :=
  match tasks with
  | [] => ret []
  | _ => chain_from None tasks []
  end.

(* ================================================================== *)
(** ** Vocabulary of the statements *)

(** The work ends by itself within the checks that a time-out of [tmo]
    seconds allows. *)
Definition completes_in_time (w : Work) (tmo : Z) : Prop :=
  exists d, polls_alive w = Some d /\ (d <= BaseTask.polls_allowed tmo)%nat.



(** The state in which [_execute_task] leaves the scheduler [s] when
    [task.run()] has returned [r] and left the task object as [task']. *)
Definition filed (task_id : string) (task' : BaseTask.t) (r : TaskResult.t)
           (s : TaskScheduler.t) : TaskScheduler.t :=
  let s1 := TaskScheduler.store task_id task' s in
  let s2 :=
    TaskScheduler.set_stats
      (TaskScheduler.update_average (TaskResult.execution_time r)
         (TaskScheduler.count_result (TaskResult.status r) (TaskScheduler.stats s1)))
      (TaskScheduler.set_completed_tasks
         (Dict.set task_id r (TaskScheduler.completed_tasks s1))
         (if Dict.mem task_id (TaskScheduler.tasks s1)
          then TaskScheduler.set_tasks (Dict.del task_id (TaskScheduler.tasks s1)) s1
          else s1)) in
  if Dict.mem task_id (TaskScheduler.running_tasks s2)
  then TaskScheduler.set_running_tasks
         (Dict.del task_id (TaskScheduler.running_tasks s2)) s2
  else s2.

(** The dictionary [d] holds the tasks of a chain: the first one as it was
    given (after [prev], if there is one), each later one with the id of
    its predecessor appended to its dependencies. *)
Fixpoint chained (prev : option string) (tasks : list (BaseTask.t * datetime))
         (d : Dict.t BaseTask.t) : Prop :=
  match tasks with
  | [] => True
  | (task, _) :: rest =>
      Dict.get (BaseTask.task_id (BaseTask.config task)) d
      = Some (match prev with
              | Some p => append_dependency p task
              | None => task
              end)
      /\ chained (Some (BaseTask.task_id (BaseTask.config task))) rest d
  end.

(** The ids of the tasks of a chain, in order *)
Definition chain_ids (tasks : list (BaseTask.t * datetime)) : list string :=
  map (fun tn => BaseTask.task_id (BaseTask.config (fst tn))) tasks.


(* ================================================================== *)
(** ** Concrete tasks and schedulers *)

Module Sample.

Definition cfg : BaseTask.Config :=
  BaseTask.mkConfig "t1" "demo" "" NORMAL 1 0 [].

(** A task as its constructor leaves it *)
Definition fresh : BaseTask.t := BaseTask.init cfg.

Definition payload : PyDict := [("cpu", PyInt 42)].

(** Work that returns [payload] after two checks; nobody cancels. *)
Definition work_ok : Work :=
  mkWork 10 20 (Some 2%nat) (ExecReturns (Some payload)) None.

(** The same work; another thread calls [cancel()] before the second check. *)
Definition work_cancelled : Work :=
  mkWork 10 20 (Some 5%nat) (ExecReturns (Some payload)) (Some 1%nat).

(** Work that raises after two checks, stamped 4 s after its start. *)
Definition work_failing : Work :=
  mkWork 0 4000000 (Some 2%nat) (ExecRaises (RuntimeError "boom")) None.


Definition cfgX : BaseTask.Config :=
  BaseTask.mkConfig "X" "first" "" NORMAL 1 0 [].
Definition cfgY : BaseTask.Config :=
  BaseTask.mkConfig "Y" "second" "" NORMAL 1 0 ["X"].
Definition taskX : BaseTask.t := BaseTask.init cfgX.
Definition taskY : BaseTask.t := BaseTask.init cfgY.

(** X is submitted to a scheduler with two workers, *)
Definition s1 : TaskScheduler.t :=
  state_of (TaskScheduler.add_task taskX 1 (TaskScheduler.init 2)).
(** dispatched, *)
Definition s2 : TaskScheduler.t :=
  TaskScheduler._process_priority_queue NORMAL 2 s1.
(** and its work raises: the worker files a FAILED result. *)
Definition s3 : TaskScheduler.t :=
  state_of (TaskScheduler._execute_task taskX work_failing s2).
(** Y, which depends on X, is submitted, *)
Definition s4 : TaskScheduler.t :=
  state_of (TaskScheduler.add_task taskY 3 s3).
(** and the next turn of the dispatch loop looks at its queue. *)
Definition s5 : TaskScheduler.t :=
  TaskScheduler._process_priority_queue NORMAL 4 s4.

(** A scheduler that has counted one completed task of 10 s and now
    holds X, already dispatched. *)
Definition counted : TaskScheduler.t :=
  TaskScheduler.mk 2 [] [] [] [] false
    [("X", taskX)] [("X", Future.RUNNING_)] []
    (Stats.mk 2 1 0 0 10) false ["X"].

Definition result_at (id : string) (e : option datetime) : string * TaskResult.t :=
  (id, TaskResult.mk id FAILED [] None 0 None e 0 []).

(** A scheduler that retains three results. *)
Definition retaining : TaskScheduler.t :=
  TaskScheduler.mk 2 [] [] [] [] false [("Y", taskY)] []
    [result_at "a" (Some 5%N); result_at "b" None; result_at "c" (Some 9%N)]
    (Stats.mk 4 0 3 0 0) false ["a"; "b"; "c"].

End Sample.

(* ================================================================== *)
(** * Properties *)

(** ** Dictionaries *)

Section DictFacts.
Context {V : Type}.
Implicit Types (d : Dict.t V) (k : string) (v : V).

Lemma get_set_same k v d : Dict.get k (Dict.set k v d) = Some v.
Proof.
  induction d as [|[k' v'] d IH]; simpl.
  - now rewrite String.eqb_refl.
  - destruct (String.eqb k k') eqn:E; simpl; rewrite ?String.eqb_refl, ?E; auto.
Qed.

Lemma get_set_other k k' v d :
  k <> k' -> Dict.get k (Dict.set k' v d) = Dict.get k d.
Proof.
  intros Hne. apply String.eqb_neq in Hne.
  induction d as [|[k0 v0] d IH]; simpl.
  - now rewrite Hne.
  - destruct (String.eqb k' k0) eqn:E; simpl.
    + apply String.eqb_eq in E. subst k0. now rewrite Hne.
    + now rewrite IH.
Qed.

Lemma mem_set k k' v d :
  Dict.mem k (Dict.set k' v d) = String.eqb k k' || Dict.mem k d.
Proof.
  unfold Dict.mem. destruct (String.eqb k k') eqn:E.
  - apply String.eqb_eq in E. subst. now rewrite get_set_same.
  - apply String.eqb_neq in E. now rewrite get_set_other.
Qed.

Lemma mem_keys k d : Dict.mem k d = true <-> In k (Dict.keys d).
Proof.
  unfold Dict.mem. induction d as [|[k' v'] d IH]; simpl.
  - split; [discriminate | tauto].
  - destruct (String.eqb k k') eqn:E.
    + apply String.eqb_eq in E. subst. tauto.
    + apply String.eqb_neq in E. rewrite IH. split; [tauto|].
      intros [H|H]; [congruence | assumption].
Qed.

Lemma mem_false_keys k d : Dict.mem k d = false <-> ~ In k (Dict.keys d).
Proof.
  rewrite <- mem_keys. destruct (Dict.mem k d); split; congruence.
Qed.


Lemma set_fresh k v d : ~ In k (Dict.keys d) -> Dict.set k v d = d ++ [(k, v)].
Proof.
  induction d as [|[k' v'] d IH]; simpl; intros Hnin; [reflexivity|].
  destruct (String.eqb k k') eqn:E.
  - apply String.eqb_eq in E. subst. tauto.
  - rewrite IH; tauto.
Qed.



Lemma set_len_le k v d : (Dict.len d <= Dict.len (Dict.set k v d) <= S (Dict.len d))%nat.
Proof.
  unfold Dict.len. induction d as [|[k' v'] d IH]; simpl; [lia|].
  destruct (String.eqb k k'); simpl; lia.
Qed.

Lemma of_list_len (l : list (string * V)) :
  (Dict.len (Dict.of_list l) <= List.length l)%nat.
Proof.
  unfold Dict.of_list.
  assert (G : forall d, (Dict.len (fold_left
               (fun d kv => Dict.set (fst kv) (snd kv) d) l d)
             <= Dict.len d + List.length l)%nat).
  { induction l as [|[k v] l IH]; intros d; simpl; [lia|].
    specialize (IH (Dict.set k v d)).
    pose proof (set_len_le k v d). lia. }
  apply (G []).
Qed.

End DictFacts.

(* ================================================================== *)
(** ** BaseTask *)

Ltac unfold_monad :=
  unfold with_lock, acquire, release, finally, try_except, concurrently,
    bind, gets, modify, ret, raise.

Ltac unfold_task :=
  unfold BaseTask.run, BaseTask.guarded, BaseTask._execute_with_timeout,
    BaseTask.stamp_end, BaseTask.cancel, BaseTask.get_info,
    BaseTask._set_status, BaseTask._notify_status_change,
    BaseTask._create_result, BaseTask.locked;
  unfold_monad.

Section TaskFacts.
Import BaseTask.

(** A held lock stops [_set_status] for good. *)
Lemma set_status_blocks_when_locked (st : TaskStatus) (err : option string) (x : t) :
  _lock x = true -> _set_status st err x = Blocked x.
Proof.
  intros Hl. unfold_task. now rewrite Hl.
Qed.

(** [cancel()] on a PENDING task takes the lock and then waits for it. *)
Lemma cancel_pending_blocks (x : t) :
  status x = PENDING -> _lock x = false ->
  cancel x = Blocked (set_lock true x).
Proof.
  intros Hs Hl. destruct x; simpl in *; subst. reflexivity.
Qed.

(** [cancel()] on a RUNNING task sets the flag and nothing else. *)
Lemma cancel_running_sets_flag (x : t) :
  status x = RUNNING -> _lock x = false ->
  cancel x = Returned tt (set_cancelled true x).
Proof.
  intros Hs Hl. destruct x; simpl in *; subst. reflexivity.
Qed.

(** [cancel()] never touches what the constructor fixed. *)
Lemma cancel_keeps_config (x : t) : config (state_of (cancel x)) = config x.
Proof.
  destruct x as [c st p s e et er rd md ca pa lk ev].
  destruct lk, st; reflexivity.
Qed.

(** With nobody cancelling, the wait ends when the work does. *)
Lemma wait_loop_finishes (w : Work) (d : nat) :
  polls_alive w = Some d -> cancel_poll w = None ->
  forall budget k x,
    _cancelled x = false -> (d <= k + budget)%nat ->
    wait_loop w k budget x =
    match execute_outcome w with
    | ExecReturns r => Returned r x
    | ExecRaises e => Raised e x
    end.
Proof.
  intros Hd Hc. induction budget as [|b IH]; intros k x Hx Hle; simpl.
  - unfold after_wait, alive. rewrite Hd.
    replace (Nat.ltb k d) with false by (symmetry; apply Nat.ltb_ge; lia).
    destruct (execute_outcome w); reflexivity.
  - unfold alive at 1. rewrite Hd. destruct (Nat.ltb k d) eqn:Hk.
    + unfold cancel_lands. rewrite Hc. unfold bind at 1. unfold ret at 1.
      unfold bind at 1. unfold gets at 1. rewrite Hx.
      apply IH; [assumption | lia].
    + unfold after_wait, alive. rewrite Hd, Hk.
      destruct (execute_outcome w); reflexivity.
Qed.

(** Whenever the work of a PENDING task returns a payload in time and
    nobody cancels, [run] stores the payload and the progress, and then
    waits for ever in [_set_status(COMPLETED)] on the lock it holds: the
    status stays RUNNING and no end time is stamped. *)
Lemma run_success_blocks (w : Work) (x : t) (r : option PyDict) :
  status x = PENDING -> _lock x = false -> _cancelled x = false ->
  completes_in_time w (timeout (config x)) ->
  cancel_poll w = None ->
  execute_outcome w = ExecReturns r ->
  exists x',
    run w x = Blocked x' /\
    status x' = RUNNING /\ result_data x' = or_empty r /\
    progress x' = 100%Q /\ end_time x' = end_time x /\ _lock x' = true.
Proof.
  intros Hs Hl Hc [d [Hd Hle]] Hcp Ho.
  destruct x; simpl in *; subst.
  unfold_task. simpl.
  rewrite (wait_loop_finishes w d Hd Hcp) by (simpl; solve [reflexivity | lia]).
  rewrite Ho. simpl. eexists; repeat split.
Qed.

(** [run] on a task that is not PENDING returns the snapshot of the task
    and changes nothing. *)
Lemma run_not_pending (w : Work) (x : t) :
  status x <> PENDING -> _lock x = false ->
  exists r, _create_result x = Returned r x /\ run w x = Returned r x.
Proof.
  intros Hs Hl. destruct x; simpl in *; subst.
  eexists; split; [reflexivity|].
  destruct status0; try congruence; reflexivity.
Qed.

End TaskFacts.

(** C1.  The path of [run] that the claim describes never returns: on the
    sample task, whose work returns its payload after two checks with no
    error, cancellation or time-out, [run] stores the payload and sets the
    progress to 100, then blocks on the task's own lock; the status is
    still RUNNING, no end time is stamped and no TaskResult comes back. *)
Theorem run_completed_path_never_returns :
  exists x,
    BaseTask.run Sample.work_ok Sample.fresh = Blocked x /\
    BaseTask.status x = RUNNING /\
    BaseTask.result_data x = Sample.payload /\
    BaseTask.progress x = 100%Q /\
    BaseTask.end_time x = None /\
    BaseTask._lock x = true.
Proof.
  eexists. split; [vm_compute; reflexivity|]. repeat split.
Qed.

(** C2.  [cancel()] on a PENDING task does not return: it takes the task's
    lock and then waits for that lock inside [_set_status]; the status is
    still PENDING.  On a RUNNING task it returns with the flag set and the
    status unchanged. *)
Theorem cancel_pending_never_returns :
  BaseTask.cancel Sample.fresh = Blocked (BaseTask.set_lock true Sample.fresh) /\
  BaseTask.status (BaseTask.set_lock true Sample.fresh) = PENDING /\
  BaseTask.cancel (BaseTask.set_status RUNNING Sample.fresh)
  = Returned tt (BaseTask.set_cancelled true (BaseTask.set_status RUNNING Sample.fresh)).
Proof.
  repeat split.
Qed.

(** C3.  A second [run] changes nothing, but its TaskResult is not the one
    of the first call when the task was cancelled: the first call builds its
    result before the [finally] block stamps the end time, the second one
    after. *)
Theorem run_twice_results_differ :
  exists r1 r2 x,
    BaseTask.run Sample.work_cancelled Sample.fresh = Returned r1 x /\
    BaseTask.run Sample.work_cancelled x = Returned r2 x /\
    TaskResult.status r1 = CANCELLED /\
    TaskResult.end_time r1 = None /\
    TaskResult.end_time r2 = Some 20%N /\
    r1 <> r2.
Proof.
  eexists; eexists; eexists.
  split; [vm_compute; reflexivity|].
  split; [vm_compute; reflexivity|].
  repeat split. discriminate.
Qed.

(** On the path where the work raises, the result is built after the
    [finally] block, and a second [run] returns that same result. *)
Example run_twice_same_after_failure :
  exists r x,
    BaseTask.run Sample.work_failing Sample.fresh = Returned r x /\
    BaseTask.run Sample.work_failing x = Returned r x /\
    TaskResult.status r = FAILED /\
    TaskResult.end_time r = Some 4000000%N.
Proof.
  eexists; eexists.
  split; [vm_compute; reflexivity|].
  split; [vm_compute; reflexivity|].
  split; reflexivity.
Qed.



(* ================================================================== *)
(** ** TaskScheduler: submission *)

Ltac unfold_sched :=
  unfold TaskScheduler.add_task, TaskScheduler.cancel_task,
    TaskScheduler.record_result, TaskScheduler._execute_task,
    TaskScheduler._cleanup_completed_tasks, TaskScheduler._scheduler_cycle,
    TaskScheduler.get_all_tasks, TaskScheduler.get_task_result,
    TaskScheduler.on_task, TaskScheduler.locked;
  unfold_monad.

Section SubmissionFacts.
Import TaskScheduler.

Lemma unlock_lock (s : t) : _lock s = false -> set_lock false (set_lock true s) = s.
Proof.
  destruct s; simpl; intros ->; reflexivity.
Qed.

(** The loop over the dependencies stops at the first one that neither
    [tasks] nor [completed_tasks] knows, and changes nothing. *)
Lemma check_dependencies_raises (s : t) (deps : list string) :
  (exists dep, In dep deps /\ Dict.mem dep (tasks s) = false
               /\ Dict.mem dep (completed_tasks s) = false) ->
  exists dep,
    In dep deps /\ Dict.mem dep (tasks s) = false
    /\ Dict.mem dep (completed_tasks s) = false
    /\ check_dependencies deps s
       = Raised (ValueError ("Dependencia no encontrada: " ++ dep)) s.
Proof.
  induction deps as [|d rest IH]; intros [dep [Hin Hmiss]]; [destruct Hin|].
  simpl. unfold bind at 1. unfold gets at 1.
  destruct (Dict.mem d (tasks s)) eqn:Et;
    [|destruct (Dict.mem d (completed_tasks s)) eqn:Ec]; simpl.
  - destruct Hin as [->|Hin]; [destruct Hmiss; congruence|].
    destruct IH as [dep' [Hin' [H1 [H2 H3]]]]; [eauto|].
    exists dep'. auto.
  - destruct Hin as [->|Hin]; [destruct Hmiss; congruence|].
    destruct IH as [dep' [Hin' [H1 [H2 H3]]]]; [eauto|].
    exists dep'. auto.
  - exists d. auto.
Qed.

Lemma check_dependencies_ok (s : t) (deps : list string) :
  (forall dep, In dep deps ->
     Dict.mem dep (tasks s) = true \/ Dict.mem dep (completed_tasks s) = true) ->
  check_dependencies deps s = Returned tt s.
Proof.
  induction deps as [|d rest IH]; intros H; [reflexivity|].
  simpl. unfold bind at 1. unfold gets at 1.
  destruct (H d (or_introl eq_refl)) as [-> | ->]; simpl;
    rewrite ?andb_false_r; apply IH; intros; apply H; now right.
Qed.

End SubmissionFacts.

(** C4.  A task with a dependency that neither [tasks] nor
    [completed_tasks] holds is refused: [add_task] raises a [ValueError]
    that names a missing dependency, and the scheduler is exactly as before,
    so the task is not stored, not queued and not counted. *)
Theorem add_task_missing_dependency
        (s : TaskScheduler.t) (task : BaseTask.t) (now : datetime) :
  TaskScheduler._lock s = false ->
  (exists dep,
      In dep (BaseTask.dependencies (BaseTask.config task))
      /\ Dict.mem dep (TaskScheduler.tasks s) = false
      /\ Dict.mem dep (TaskScheduler.completed_tasks s) = false) ->
  exists dep,
    In dep (BaseTask.dependencies (BaseTask.config task))
    /\ Dict.mem dep (TaskScheduler.tasks s) = false
    /\ Dict.mem dep (TaskScheduler.completed_tasks s) = false
    /\ TaskScheduler.add_task task now s
       = Raised (ValueError ("Dependencia no encontrada: " ++ dep)) s.
Proof.
  intros Hl Hmiss.
  destruct (check_dependencies_raises (TaskScheduler.set_lock true s)
              (BaseTask.dependencies (BaseTask.config task)))
    as [dep [Hin [H1 [H2 H3]]]].
  { destruct Hmiss as [dep H]. exists dep. destruct s; exact H. }
  exists dep. split; [exact Hin|].
  split; [destruct s; exact H1|]. split; [destruct s; exact H2|].
  unfold_sched. rewrite Hl.
  rewrite H3. simpl. now rewrite unlock_lock.
Qed.

Lemma add_task_missing_dependency_witness :
  exists dep,
    In dep (BaseTask.dependencies (BaseTask.config Sample.taskY))
    /\ Dict.mem dep (TaskScheduler.tasks (TaskScheduler.init 2)) = false
    /\ Dict.mem dep (TaskScheduler.completed_tasks (TaskScheduler.init 2)) = false
    /\ TaskScheduler.add_task Sample.taskY 3 (TaskScheduler.init 2)
       = Raised (ValueError ("Dependencia no encontrada: " ++ dep))
                (TaskScheduler.init 2).
Proof.
  apply (add_task_missing_dependency (TaskScheduler.init 2) Sample.taskY 3).
  - reflexivity.
  - exists "X". simpl. repeat split. now left.
Defined.

(* ================================================================== *)
(** ** TaskScheduler: dispatch *)

Section DispatchFacts.
Import TaskScheduler.

(** Dispatching only ever adds to the record of submissions. *)
Lemma drain_keeps_submitted (p : TaskPriority) (now : datetime)
      (q : PriorityQueue.t) :
  forall s id, In id (submitted s) -> In id (submitted (drain p now q s)).
Proof.
  induction q as [|[[v ts] tid] rest IH]; intros s id Hin; simpl.
  - destruct p; exact Hin.
  - destruct (Nat.ltb (Dict.len (running_tasks s)) (max_workers s)).
    + destruct (Dict.get tid (tasks s)) as [task|]; [|now apply IH].
      destruct (_dependencies_completed s task); simpl.
      * apply IH. simpl. apply in_or_app. now left.
      * destruct p; exact Hin.
    + destruct p; exact Hin.
Qed.


(** The gate as the dispatch loop applies it: a task whose dependencies
    [_dependencies_completed] rejects goes back on the queue it came from,
    the loop stops, and nothing is submitted. *)
Lemma unmet_dependency_requeued (p : TaskPriority) (now : datetime)
      (s : t) (e : PriorityQueue.entry) (rest : PriorityQueue.t) (task : BaseTask.t) :
  task_queues s p = e :: rest ->
  Nat.ltb (Dict.len (running_tasks s)) (max_workers s) = true ->
  Dict.get (PriorityQueue.entry_id e) (tasks s) = Some task ->
  _dependencies_completed s task = false ->
  _process_priority_queue p now s
  = set_queue p (PriorityQueue.put (priority_value p, now, PriorityQueue.entry_id e) rest) s.
Proof.
  intros Hq Hw Ht Hd. unfold _process_priority_queue. rewrite Hq.
  destruct e as [[v ts] tid]. simpl in *. now rewrite Hw, Ht, Hd.
Qed.

(** A dependency that is no longer in [tasks] passes the gate as soon as
    [completed_tasks] has an entry for it: its status is not looked at. *)
Lemma finished_dependency_passes (s : t) (dep : string) :
  Dict.get dep (tasks s) = None ->
  Dict.mem dep (completed_tasks s) = true ->
  deps_completed s [dep] = true.
Proof.
  intros Ht Hc. simpl. now rewrite Ht, Hc.
Qed.

(** What [cancel_task] leaves behind for a task that is not in flight,
    whether or not the call comes back. *)
Lemma cancel_task_effect (s : t) (task_id : string) (task : BaseTask.t) :
  Dict.get task_id (tasks s) = Some task ->
  Dict.mem task_id (running_tasks s) = false ->
  let s' := state_of (cancel_task task_id s) in
  (tasks s' = tasks s
   \/ tasks s' = Dict.set task_id (state_of (BaseTask.cancel task)) (tasks s))
  /\ (forall q, task_queues s' q = task_queues s q)
  /\ submitted s' = submitted s
  /\ running_tasks s' = running_tasks s
  /\ max_workers s' = max_workers s
  /\ completed_tasks s' = completed_tasks s.
Proof.
  intros Ht Hr. unfold Dict.mem in Hr.
  destruct (Dict.get task_id (running_tasks s)) eqn:Er; [discriminate|].
  assert (Hm : Dict.mem task_id (tasks s) = true)
    by (unfold Dict.mem; now rewrite Ht).
  unfold_sched. unfold store.
  destruct s as [mw qc qh qn ql se ts rs cs st lk sb]. simpl in *.
  destruct lk; simpl.
  - repeat split; auto; try (intros []; reflexivity).
  - rewrite Er. simpl. rewrite Ht.
    destruct (BaseTask.cancel task) as [u x|e x|x]; simpl; rewrite Hm; simpl;
      (repeat split; auto; try (intros []; reflexivity)).
Qed.

End DispatchFacts.

(** C5.  The gate lets a task through whose dependency has failed.  X is
    submitted, dispatched, and its work raises, so the worker files a
    FAILED result for X; Y, which declares X as its dependency, is then
    submitted; the next look at Y's queue submits Y to a worker although
    the status of X is FAILED and not COMPLETED. *)
Theorem failed_dependency_is_dispatched :
  Dict.get "X" (TaskScheduler.tasks Sample.s2) = Some Sample.taskX /\
  BaseTask.dependencies (BaseTask.config Sample.taskY) = ["X"] /\
  Dict.get "Y" (TaskScheduler.tasks Sample.s4) = Some Sample.taskY /\
  Dict.get "X" (TaskScheduler.tasks Sample.s4) = None /\
  (exists r, Dict.get "X" (TaskScheduler.completed_tasks Sample.s4) = Some r
             /\ TaskResult.status r = FAILED) /\
  PriorityQueue.ids (TaskScheduler.task_queues Sample.s4 NORMAL) = ["Y"] /\
  TaskScheduler.submitted Sample.s4 = ["X"] /\
  TaskScheduler.submitted Sample.s5 = ["X"; "Y"] /\
  Dict.mem "Y" (TaskScheduler.running_tasks Sample.s5) = true /\
  TaskScheduler.task_queues Sample.s5 NORMAL = [].
Proof.
  repeat split; try (vm_compute; reflexivity).
  eexists. split; vm_compute; reflexivity.
Qed.

(** C6, refuted.  X is PENDING and on the NORMAL queue.  After
    [cancel_task] its entry is still on that queue, and the next look at the
    queue submits X to a worker. *)
Lemma cancel_task_pending_still_dispatched :
  Dict.get "X" (TaskScheduler.tasks Sample.s1) = Some Sample.taskX /\
  BaseTask.status Sample.taskX = PENDING /\
  PriorityQueue.ids (TaskScheduler.task_queues Sample.s1 NORMAL) = ["X"] /\
  TaskScheduler.submitted Sample.s1 = [] /\
  PriorityQueue.ids
    (TaskScheduler.task_queues
       (state_of (TaskScheduler.cancel_task "X" Sample.s1)) NORMAL) = ["X"] /\
  TaskScheduler.submitted
    (TaskScheduler._process_priority_queue NORMAL 2
       (state_of (TaskScheduler.cancel_task "X" Sample.s1))) = ["X"].
Proof.
  repeat split; vm_compute; reflexivity.
Qed.

(** C6, as the code has it.  [cancel_task] on a task that is in [tasks] and
    not in flight only calls the task's [cancel()]: the queues, the record
    of submissions and the membership of [tasks] are as before.  So when the
    dispatch loop comes to the entry with a free worker and the task's
    dependencies pass the gate, it submits the task. *)
Theorem cancel_task_keeps_entry_queued
        (s : TaskScheduler.t) (task_id : string) (task : BaseTask.t)
        (p : TaskPriority) (now : datetime)
        (v : Z) (ts : datetime) (rest : PriorityQueue.t) :
  Dict.get task_id (TaskScheduler.tasks s) = Some task ->
  Dict.mem task_id (TaskScheduler.running_tasks s) = false ->
  TaskScheduler.task_queues s p = (v, ts, task_id) :: rest ->
  Nat.ltb (Dict.len (TaskScheduler.running_tasks s)) (TaskScheduler.max_workers s) = true ->
  TaskScheduler.deps_completed
    (state_of (TaskScheduler.cancel_task task_id s))
    (BaseTask.dependencies (BaseTask.config task)) = true ->
  (forall q, TaskScheduler.task_queues (state_of (TaskScheduler.cancel_task task_id s)) q
             = TaskScheduler.task_queues s q) /\
  Dict.mem task_id (TaskScheduler.tasks (state_of (TaskScheduler.cancel_task task_id s))) = true /\
  TaskScheduler.submitted (state_of (TaskScheduler.cancel_task task_id s))
  = TaskScheduler.submitted s /\
  In task_id
     (TaskScheduler.submitted
        (TaskScheduler._process_priority_queue p now
           (state_of (TaskScheduler.cancel_task task_id s)))).
Proof.
  intros Ht Hr Hq Hw Hd.
  destruct (cancel_task_effect s task_id task Ht Hr)
    as [Htasks [Hqs [Hsub [Hrun [Hmw Hcomp]]]]].
  set (s' := state_of (TaskScheduler.cancel_task task_id s)) in *.
  assert (Hget : exists task',
             Dict.get task_id (TaskScheduler.tasks s') = Some task'
             /\ BaseTask.config task' = BaseTask.config task).
  { destruct Htasks as [-> | ->].
    - exists task. auto.
    - eexists. split; [apply get_set_same | apply cancel_keeps_config]. }
  destruct Hget as [task' [Hget Hcfg]].
  split; [exact Hqs|]. split; [unfold Dict.mem; now rewrite Hget|].
  split; [exact Hsub|].
  unfold TaskScheduler._process_priority_queue. rewrite Hqs, Hq. simpl.
  rewrite Hrun, Hmw, Hw, Hget.
  unfold TaskScheduler._dependencies_completed. rewrite Hcfg, Hd. simpl.
  apply drain_keeps_submitted. simpl. apply in_or_app. right. now left.
Qed.

Lemma cancel_task_keeps_entry_queued_witness :
  (forall q, TaskScheduler.task_queues
               (state_of (TaskScheduler.cancel_task "X" Sample.s1)) q
             = TaskScheduler.task_queues Sample.s1 q) /\
  Dict.mem "X" (TaskScheduler.tasks
                  (state_of (TaskScheduler.cancel_task "X" Sample.s1))) = true /\
  TaskScheduler.submitted (state_of (TaskScheduler.cancel_task "X" Sample.s1))
  = TaskScheduler.submitted Sample.s1 /\
  In "X"
     (TaskScheduler.submitted
        (TaskScheduler._process_priority_queue NORMAL 2
           (state_of (TaskScheduler.cancel_task "X" Sample.s1)))).
Proof.
  apply (cancel_task_keeps_entry_queued Sample.s1 "X" Sample.taskX NORMAL 2
           2%Z 1%N []); vm_compute; reflexivity.
Defined.

(* ================================================================== *)
(** ** TaskScheduler: statistics *)

Section StatsFacts.
Import TaskScheduler.



(** The update of the average does not look at the status of the result:
    once a task has been counted as completed, every later result moves
    the average, also one that is not counted. *)
Lemma update_average_any_status (x : Stats.t) (st : TaskStatus) (d : Q) :
  st <> COMPLETED ->
  (0 < Stats.completed_tasks x)%Z ->
  let x' := update_average d (count_result st x) in
  Stats.completed_tasks x' = Stats.completed_tasks x
  /\ Stats.average_execution_time x'
     = ((Stats.average_execution_time x
           * inject_Z (Stats.completed_tasks x - 1) + d)
          / inject_Z (Stats.completed_tasks x))%Q.
Proof.
  intros Hst Hpos. apply Z.ltb_lt in Hpos.
  unfold update_average, count_result.
  destruct st; try congruence; simpl; rewrite Hpos; simpl; auto.
Qed.

End StatsFacts.


(* ================================================================== *)
(** ** TaskScheduler: retention of results *)

Section RetentionFacts.
Import TaskScheduler.

Implicit Types (l : list (string * TaskResult.t)) (x y : string * TaskResult.t).













End RetentionFacts.



(** The same clean-up with a bound of two, on three retained results: the
    one without end time goes, the two stamped ones stay, latest first. *)
Example cleanup_evicts_oldest :
  TaskScheduler._cleanup_completed_tasks 2 Sample.retaining
  = Returned tt
      (TaskScheduler.set_completed_tasks
         [Sample.result_at "c" (Some 9%N); Sample.result_at "a" (Some 5%N)]
         Sample.retaining).
Proof.
  vm_compute. reflexivity.
Qed.

(* ================================================================== *)
(** ** TaskScheduler: get_all_tasks *)

Section ListingFacts.
Import TaskScheduler.


(** [get_info] on a task whose lock is free *)
Lemma get_info_returns (task : BaseTask.t) :
  BaseTask._lock task = false ->
  exists info, BaseTask.get_info task = Returned info task.
Proof.
  intros Hl. destruct task; simpl in Hl; subst.
  eexists. reflexivity.
Qed.

Lemma store_keeps (id : string) (task : BaseTask.t) (s : t) :
  completed_tasks (store id task s) = completed_tasks s
  /\ _lock (store id task s) = _lock s.
Proof.
  unfold store. destruct (Dict.mem id (tasks s)); split; reflexivity.
Qed.





End ListingFacts.



(* ================================================================== *)
(** * Further properties *)

(** ** BaseTask: control operations *)

(** [cancel()] itself never changes the status, whatever the task: on a
    RUNNING task it only sets the flag, on a PENDING one it blocks before
    the assignment, and otherwise it does nothing. *)
Theorem cancel_never_changes_status (x : BaseTask.t) :
  BaseTask.status (state_of (BaseTask.cancel x)) = BaseTask.status x.
Proof.
  destruct x as [c st p s e et er rd md ca pa lk ev].
  destruct lk, st; reflexivity.
Qed.

(** [pause()] on a RUNNING task sets the pause flag and then waits for ever
    in [_set_status] on the lock it holds: the status is still RUNNING. *)
Theorem pause_running_blocks (x : BaseTask.t) :
  BaseTask.status x = RUNNING -> BaseTask._lock x = false ->
  BaseTask.pause x
  = Blocked (BaseTask.set_paused true (BaseTask.set_lock true x)).
Proof.
  destruct x as [c st p s e et er rd md ca pa lk ev]; simpl.
  intros -> ->. reflexivity.
Qed.

Lemma pause_running_blocks_witness :
  BaseTask.pause (BaseTask.set_status RUNNING Sample.fresh)
  = Blocked (BaseTask.set_paused true
               (BaseTask.set_lock true (BaseTask.set_status RUNNING Sample.fresh))).
Proof.
  apply (pause_running_blocks (BaseTask.set_status RUNNING Sample.fresh));
    reflexivity.
Defined.

(** Neither [pause()] nor [resume()] ever changes the status: where they
    would, they block first; everywhere else they do nothing. *)
Theorem pause_resume_keep_status (x : BaseTask.t) :
  BaseTask.status (state_of (BaseTask.pause x)) = BaseTask.status x
  /\ BaseTask.status (state_of (BaseTask.resume x)) = BaseTask.status x.
Proof.
  destruct x as [c st p s e et er rd md ca pa lk ev].
  destruct lk, st; split; reflexivity.
Qed.

(** ** BaseTask: progress *)

Lemma clamp_bounds (p : Q) :
  (0 <= BaseTask.clamp p)%Q /\ (BaseTask.clamp p <= 100)%Q.
Proof.
  unfold BaseTask.clamp.
  destruct (Qle_bool 100 p) eqn:E1.
  - simpl. split; discriminate.
  - destruct (Qle_bool p 0) eqn:E2.
    + split; discriminate.
    + split.
      * apply Qlt_le_weak. apply Qnot_le_lt. intros H.
        apply Qle_bool_iff in H. congruence.
      * apply Qlt_le_weak. apply Qnot_le_lt. intros H.
        apply Qle_bool_iff in H. congruence.
Qed.

Lemma clamp_in_range (p : Q) :
  (0 <= p)%Q -> (p <= 100)%Q -> (BaseTask.clamp p == p)%Q.
Proof.
  intros H0 H100. unfold BaseTask.clamp.
  destruct (Qle_bool 100 p) eqn:E1.
  - apply Qle_bool_iff in E1. simpl. apply Qle_antisym; assumption.
  - destruct (Qle_bool p 0) eqn:E2; [|reflexivity].
    apply Qle_bool_iff in E2. apply Qle_antisym; assumption.
Qed.

(** [update_progress] returns when the lock is free.  The stored progress
    lies between 0 and 100 and is the given value when that is in range; a
    non-empty message is stored under ["progress_message"], an empty one
    leaves the metadata alone; the observer is told the stored value; the
    status is untouched. *)
Theorem update_progress_clamps (p : Q) (message : string) (x : BaseTask.t) :
  BaseTask._lock x = false ->
  exists x',
    BaseTask.update_progress p message x = Returned tt x'
    /\ (0 <= BaseTask.progress x')%Q /\ (BaseTask.progress x' <= 100)%Q
    /\ ((0 <= p)%Q -> (p <= 100)%Q -> (BaseTask.progress x' == p)%Q)
    /\ (message <> "" ->
        Dict.get "progress_message" (BaseTask.metadata x') = Some (PyStr message))
    /\ (message = "" -> BaseTask.metadata x' = BaseTask.metadata x)
    /\ BaseTask.status x' = BaseTask.status x
    /\ BaseTask._lock x' = false
    /\ BaseTask.events x'
       = BaseTask.events x ++ [BaseTask.ProgressNotified (BaseTask.progress x')].
Proof.
  destruct x as [c st p0 s e et er rd md ca pa lk ev]; simpl. intros ->.
  unfold BaseTask.update_progress, BaseTask.locked. unfold_monad. simpl.
  destruct (String.eqb message "") eqn:Em; simpl.
  - eexists. split; [reflexivity|]. simpl.
    destruct (clamp_bounds p) as [H0 H1].
    repeat split; auto using clamp_in_range.
    intros Hne. apply String.eqb_eq in Em. congruence.
  - eexists. split; [reflexivity|]. simpl.
    destruct (clamp_bounds p) as [H0 H1].
    repeat split; auto using clamp_in_range.
    + intros _. apply get_set_same.
    + intros Heq. apply String.eqb_neq in Em. congruence.
Qed.

Lemma update_progress_clamps_witness :
  exists x',
    BaseTask.update_progress 150 "half way" Sample.fresh = Returned tt x'
    /\ (0 <= BaseTask.progress x')%Q /\ (BaseTask.progress x' <= 100)%Q
    /\ ((0 <= 150)%Q -> (150 <= 100)%Q -> (BaseTask.progress x' == 150)%Q)
    /\ ("half way" <> "" ->
        Dict.get "progress_message" (BaseTask.metadata x') = Some (PyStr "half way"))
    /\ ("half way" = "" -> BaseTask.metadata x' = BaseTask.metadata Sample.fresh)
    /\ BaseTask.status x' = BaseTask.status Sample.fresh
    /\ BaseTask._lock x' = false
    /\ BaseTask.events x'
       = BaseTask.events Sample.fresh
           ++ [BaseTask.ProgressNotified (BaseTask.progress x')].
Proof.
  apply (update_progress_clamps 150 "half way" Sample.fresh). reflexivity.
Defined.

(** ** BaseTask: the paths of run *)

Section RunPaths.
Import BaseTask.


(** A [cancel()] from another thread that lands while the worker is alive
    ends the wait with an empty result and the flag set. *)
Lemma wait_loop_cancelled (w : Work) (c : nat) :
  cancel_poll w = Some c ->
  (forall j, (j <= c)%nat -> alive w j = true) ->
  forall budget k x,
    status x = RUNNING -> _lock x = false -> _cancelled x = false ->
    (k <= c)%nat -> (c < k + budget)%nat ->
    wait_loop w k budget x = Returned (Some []) (set_cancelled true x).
Proof.
  intros Hc Hal. induction budget as [|b IH]; intros k x Hs Hl Hx Hk Hb; [lia|].
  simpl. rewrite Hal by lia. unfold cancel_lands. rewrite Hc.
  destruct (Nat.eqb k c) eqn:E.
  - unfold bind at 1. unfold concurrently.
    rewrite (cancel_running_sets_flag x Hs Hl). simpl.
    destruct x; reflexivity.
  - apply Nat.eqb_neq in E.
    unfold bind at 1. unfold ret at 1. unfold bind at 1. unfold gets at 1.
    rewrite Hx. apply IH; auto; lia.
Qed.


End RunPaths.



(** The work raises in time and nobody cancels: [run] returns, and the
    status follows the class of the exception.  A [TimeoutError] raised by
    the work itself is reported as TIMEOUT with the fixed text; anything
    else is FAILED with the task's name and the message. *)
Theorem run_reports_exception (w : Work) (x : BaseTask.t) (e : PyExn) :
  BaseTask.status x = PENDING ->
  BaseTask._lock x = false ->
  BaseTask._cancelled x = false ->
  cancel_poll w = None ->
  completes_in_time w (BaseTask.timeout (BaseTask.config x)) ->
  execute_outcome w = ExecRaises e ->
  exists r x',
    BaseTask.run w x = Returned r x'
    /\ BaseTask._create_result x' = Returned r x'
    /\ TaskResult.status r
       = match e with TimeoutError _ => TIMEOUT | _ => FAILED end
    /\ TaskResult.error r
       = Some match e with
              | TimeoutError _ => "Tiempo de ejecución excedido"
              | _ => ("Error en tarea " ++ BaseTask.name (BaseTask.config x)
                        ++ ": " ++ exn_str e)%string
              end
    /\ TaskResult.end_time r = Some (finished_at w)
    /\ TaskResult.data r = BaseTask.result_data x
    /\ BaseTask._lock x' = false.
Proof.
  destruct x as [c st p s0 e0 et er rd md ca pa lk ev]; simpl.
  intros -> -> -> Hc [d [Hd Hle]] Ho.
  set (st' := match e with TimeoutError _ => TIMEOUT | _ => FAILED end).
  set (msg := match e with
              | TimeoutError _ => "Tiempo de ejecución excedido"
              | _ => ("Error en tarea " ++ BaseTask.name c ++ ": " ++ exn_str e)%string
              end).
  set (r := TaskResult.mk (BaseTask.task_id c) st' rd (Some msg)
              (total_seconds (finished_at w) (started_at w))
              (Some (started_at w)) (Some (finished_at w)) 0 md).
  exists r.
  exists (BaseTask.mk c st' 0 (Some (started_at w)) (Some (finished_at w))
            (total_seconds (finished_at w) (started_at w))
            (Some msg) rd md false pa false
            ((((ev ++ [BaseTask.StatusNotified RUNNING])
                 ++ [BaseTask.ExecuteStarted])
                ++ [BaseTask.StatusNotified st'])
               ++ [BaseTask.CompleteNotified r])).
  split.
  { unfold_task. simpl.
    rewrite (wait_loop_finishes w d Hd Hc) by (simpl; solve [reflexivity | lia]).
    rewrite Ho. subst r st' msg. destruct e; reflexivity. }
  split; [reflexivity|]. simpl. repeat split.
Qed.

Lemma run_reports_exception_witness :
  exists r x',
    BaseTask.run Sample.work_failing Sample.fresh = Returned r x'
    /\ BaseTask._create_result x' = Returned r x'
    /\ TaskResult.status r = FAILED
    /\ TaskResult.error r = Some "Error en tarea demo: boom"
    /\ TaskResult.end_time r = Some 4000000%N
    /\ TaskResult.data r = BaseTask.result_data Sample.fresh
    /\ BaseTask._lock x' = false.
Proof.
  apply (run_reports_exception Sample.work_failing Sample.fresh (RuntimeError "boom"));
    try reflexivity.
  exists 2%nat. split; [reflexivity|]. vm_compute. lia.
Defined.

(** Another thread cancels while the work is running: [run] returns a
    CANCELLED result that was built before the end time was stamped (it
    carries the task's old end time and elapsed time, and none of the
    work's payload), while the task itself is stamped; [execute()] was
    started once and the observer of completion is not called. *)
Theorem run_cancelled_during_work (w : Work) (x : BaseTask.t) (c : nat) :
  BaseTask.status x = PENDING ->
  BaseTask._lock x = false ->
  BaseTask._cancelled x = false ->
  cancel_poll w = Some c ->
  (forall j, (j <= c)%nat -> alive w j = true) ->
  (c < BaseTask.polls_allowed (BaseTask.timeout (BaseTask.config x)))%nat ->
  exists r x',
    BaseTask.run w x = Returned r x'
    /\ TaskResult.status r = CANCELLED
    /\ BaseTask.status x' = CANCELLED
    /\ TaskResult.data r = BaseTask.result_data x
    /\ TaskResult.end_time r = BaseTask.end_time x
    /\ TaskResult.execution_time r = BaseTask.execution_time x
    /\ BaseTask.end_time x' = Some (finished_at w)
    /\ BaseTask.execution_time x' = total_seconds (finished_at w) (started_at w)
    /\ BaseTask._lock x' = false
    /\ BaseTask.events x'
       = BaseTask.events x
           ++ [BaseTask.StatusNotified RUNNING; BaseTask.ExecuteStarted;
               BaseTask.StatusNotified CANCELLED].
Proof.
  destruct x as [cf st p s0 e et er rd md ca pa lk ev]; simpl.
  intros -> -> -> Hc Hal Hlt.
  exists (TaskResult.mk (BaseTask.task_id cf) CANCELLED rd er et
            (Some (started_at w)) e 0 md).
  exists (BaseTask.mk cf CANCELLED 0 (Some (started_at w)) (Some (finished_at w))
            (total_seconds (finished_at w) (started_at w)) er rd md
            true pa false
            (((ev ++ [BaseTask.StatusNotified RUNNING])
                ++ [BaseTask.ExecuteStarted])
               ++ [BaseTask.StatusNotified CANCELLED])).
  split.
  { unfold_task. simpl.
    rewrite (wait_loop_cancelled w c Hc Hal) by (simpl; solve [reflexivity | lia]).
    reflexivity. }
  simpl. repeat split. now rewrite <- !app_assoc.
Qed.

Lemma run_cancelled_during_work_witness :
  exists r x',
    BaseTask.run Sample.work_cancelled Sample.fresh = Returned r x'
    /\ TaskResult.status r = CANCELLED
    /\ BaseTask.status x' = CANCELLED
    /\ TaskResult.data r = BaseTask.result_data Sample.fresh
    /\ TaskResult.end_time r = BaseTask.end_time Sample.fresh
    /\ TaskResult.execution_time r = BaseTask.execution_time Sample.fresh
    /\ BaseTask.end_time x' = Some 20%N
    /\ BaseTask.execution_time x' = total_seconds 20 10
    /\ BaseTask._lock x' = false
    /\ BaseTask.events x'
       = BaseTask.events Sample.fresh
           ++ [BaseTask.StatusNotified RUNNING; BaseTask.ExecuteStarted;
               BaseTask.StatusNotified CANCELLED].
Proof.
  apply (run_cancelled_during_work Sample.work_cancelled Sample.fresh 1);
    try reflexivity.
  - intros j Hj. destruct j as [|[|j]]; [reflexivity | reflexivity | lia].
  - vm_compute. lia.
Defined.



(** ** Dictionaries: deletion and size *)

Section DictMoreFacts.
Context {V : Type}.
Implicit Types (d : Dict.t V) (k : string) (v : V).

Lemma keys_set_mem k v d :
  Dict.mem k d = true -> Dict.keys (Dict.set k v d) = Dict.keys d.
Proof.
  unfold Dict.mem. induction d as [|[k' v'] d IH]; simpl; [discriminate|].
  destruct (String.eqb k k') eqn:E; simpl.
  - apply String.eqb_eq in E. now subst.
  - intros H. now rewrite IH.
Qed.

Lemma len_set_mem k v d :
  Dict.mem k d = true -> Dict.len (Dict.set k v d) = Dict.len d.
Proof.
  intros H. unfold Dict.len.
  rewrite <- (length_map fst (Dict.set k v d)), <- (length_map fst d).
  change (map fst (Dict.set k v d)) with (Dict.keys (Dict.set k v d)).
  now rewrite keys_set_mem.
Qed.

Lemma len_set_fresh k v d :
  Dict.mem k d = false -> Dict.len (Dict.set k v d) = S (Dict.len d).
Proof.
  intros H. apply mem_false_keys in H. rewrite set_fresh by exact H.
  unfold Dict.len. rewrite length_app. simpl. lia.
Qed.

Lemma wf_set k v d : Dict.wf d -> Dict.wf (Dict.set k v d).
Proof.
  intros Hwf. destruct (Dict.mem k d) eqn:E.
  - unfold Dict.wf. now rewrite keys_set_mem.
  - apply mem_false_keys in E. rewrite set_fresh by exact E.
    unfold Dict.wf, Dict.keys in *. rewrite map_app. simpl.
    apply NoDup_app; [exact Hwf | repeat constructor; tauto |].
    intros a Ha [<- | []]. contradiction.
Qed.

Lemma keys_del_subset k k' d : In k' (Dict.keys (Dict.del k d)) -> In k' (Dict.keys d).
Proof.
  induction d as [|[k0 v0] d IH]; simpl; [tauto|].
  destruct (String.eqb k k0); simpl; tauto.
Qed.

Lemma mem_del_same k d : Dict.wf d -> Dict.mem k (Dict.del k d) = false.
Proof.
  unfold Dict.wf. intros Hwf. apply mem_false_keys.
  induction d as [|[k0 v0] d IH]; simpl; [tauto|].
  simpl in Hwf. inversion Hwf as [|? ? Hnin Hnd]; subst.
  destruct (String.eqb k k0) eqn:E; simpl.
  - apply String.eqb_eq in E. now subst.
  - apply String.eqb_neq in E. intros [H | H]; [congruence | now apply IH].
Qed.

Lemma get_del_other k k' d : k' <> k -> Dict.get k' (Dict.del k d) = Dict.get k' d.
Proof.
  intros Hne. induction d as [|[k0 v0] d IH]; simpl; [reflexivity|].
  destruct (String.eqb k k0) eqn:E; simpl.
  - apply String.eqb_eq in E. subst k0.
    apply String.eqb_neq in Hne. now rewrite Hne.
  - now rewrite IH.
Qed.

Lemma wf_del k d : Dict.wf d -> Dict.wf (Dict.del k d).
Proof.
  unfold Dict.wf. induction d as [|[k0 v0] d IH]; simpl; intros Hwf; [constructor|].
  inversion Hwf as [|? ? Hnin Hnd]; subst.
  destruct (String.eqb k k0); simpl; [exact Hnd|].
  constructor; [|now apply IH].
  intros H. apply Hnin. eapply keys_del_subset. exact H.
Qed.

End DictMoreFacts.

(** ** TaskScheduler: submission, continued *)

Lemma put_length (e : PriorityQueue.entry) (q : PriorityQueue.t) :
  PriorityQueue.qsize (PriorityQueue.put e q) = S (PriorityQueue.qsize q).
Proof.
  unfold PriorityQueue.qsize. induction q as [|x q IH]; simpl; [reflexivity|].
  destruct (PriorityQueue.entry_leb x e); simpl; [now rewrite IH | reflexivity].
Qed.

Lemma put_ids (e : PriorityQueue.entry) (q : PriorityQueue.t) :
  Permutation (PriorityQueue.ids (PriorityQueue.put e q))
              (PriorityQueue.entry_id e :: PriorityQueue.ids q).
Proof.
  unfold PriorityQueue.ids. induction q as [|x q IH]; simpl; [reflexivity|].
  destruct (PriorityQueue.entry_leb x e); simpl; [|reflexivity].
  rewrite IH. apply perm_swap.
Qed.

(** A task whose dependencies are all known is accepted: [add_task]
    returns its id, [get_task] then finds the task, the submitted counter
    and the queue of the task's priority grow by one, that queue holds the
    id, and the other queues, the other tasks, the retained results and the
    handles are as before. *)
Theorem add_task_registers
        (s : TaskScheduler.t) (task : BaseTask.t) (now : datetime) :
  TaskScheduler._lock s = false ->
  (forall dep, In dep (BaseTask.dependencies (BaseTask.config task)) ->
     Dict.mem dep (TaskScheduler.tasks s) = true
     \/ Dict.mem dep (TaskScheduler.completed_tasks s) = true) ->
  exists s',
    TaskScheduler.add_task task now s
    = Returned (BaseTask.task_id (BaseTask.config task)) s'
    /\ TaskScheduler.get_task (BaseTask.task_id (BaseTask.config task)) s'
       = Returned (Some task) s'
    /\ Stats.total_tasks (TaskScheduler.stats s')
       = (Stats.total_tasks (TaskScheduler.stats s) + 1)%Z
    /\ PriorityQueue.qsize
         (TaskScheduler.task_queues s' (BaseTask.priority (BaseTask.config task)))
       = S (PriorityQueue.qsize
              (TaskScheduler.task_queues s (BaseTask.priority (BaseTask.config task))))
    /\ In (BaseTask.task_id (BaseTask.config task))
          (PriorityQueue.ids
             (TaskScheduler.task_queues s' (BaseTask.priority (BaseTask.config task))))
    /\ (forall q, q <> BaseTask.priority (BaseTask.config task) ->
          TaskScheduler.task_queues s' q = TaskScheduler.task_queues s q)
    /\ (forall k, k <> BaseTask.task_id (BaseTask.config task) ->
          Dict.get k (TaskScheduler.tasks s') = Dict.get k (TaskScheduler.tasks s))
    /\ TaskScheduler.completed_tasks s' = TaskScheduler.completed_tasks s
    /\ TaskScheduler.running_tasks s' = TaskScheduler.running_tasks s
    /\ TaskScheduler._lock s' = false.
Proof.
  intros Hl Hdeps.
  set (c := BaseTask.config task).
  set (e := (priority_value (BaseTask.priority c), now, BaseTask.task_id c)).
  exists (TaskScheduler.set_queue (BaseTask.priority c)
            (PriorityQueue.put e (TaskScheduler.task_queues s (BaseTask.priority c)))
            (TaskScheduler.set_stats
               (TaskScheduler.count_submitted (TaskScheduler.stats s))
               (TaskScheduler.set_tasks
                  (Dict.set (BaseTask.task_id c) task (TaskScheduler.tasks s)) s))).
  split.
  { unfold_sched. rewrite Hl. fold c.
    rewrite (check_dependencies_ok (TaskScheduler.set_lock true s))
      by (destruct s; exact Hdeps).
    destruct s as [mw qc qh qn ql se ts rs cs st lk sb]. simpl in Hl. subst lk.
    subst e. destruct (BaseTask.priority c) eqn:Ep; simpl; rewrite ?Ep; reflexivity. }
  split.
  { unfold TaskScheduler.get_task, gets. f_equal.
    destruct (BaseTask.priority c); simpl; apply get_set_same. }
  split; [destruct (BaseTask.priority c); reflexivity|].
  assert (Hq : TaskScheduler.task_queues
                 (TaskScheduler.set_queue (BaseTask.priority c)
                    (PriorityQueue.put e (TaskScheduler.task_queues s (BaseTask.priority c)))
                    (TaskScheduler.set_stats
                       (TaskScheduler.count_submitted (TaskScheduler.stats s))
                       (TaskScheduler.set_tasks
                          (Dict.set (BaseTask.task_id c) task (TaskScheduler.tasks s)) s)))
                 (BaseTask.priority c)
               = PriorityQueue.put e (TaskScheduler.task_queues s (BaseTask.priority c)))
    by (destruct (BaseTask.priority c); reflexivity).
  rewrite Hq.
  split; [apply put_length|].
  split.
  { apply (Permutation_in _ (Permutation_sym (put_ids e _))). now left. }
  split.
  { intros q Hq'. destruct q, (BaseTask.priority c); try congruence; reflexivity. }
  split.
  { intros k Hk. destruct (BaseTask.priority c); simpl; now apply get_set_other. }
  destruct (BaseTask.priority c); simpl; auto.
Qed.

Lemma add_task_registers_witness :
  exists s',
    TaskScheduler.add_task Sample.taskX 1 (TaskScheduler.init 2)
    = Returned (BaseTask.task_id (BaseTask.config Sample.taskX)) s'
    /\ TaskScheduler.get_task (BaseTask.task_id (BaseTask.config Sample.taskX)) s'
       = Returned (Some Sample.taskX) s'
    /\ Stats.total_tasks (TaskScheduler.stats s')
       = (Stats.total_tasks (TaskScheduler.stats (TaskScheduler.init 2)) + 1)%Z
    /\ PriorityQueue.qsize
         (TaskScheduler.task_queues s' (BaseTask.priority (BaseTask.config Sample.taskX)))
       = S (PriorityQueue.qsize
              (TaskScheduler.task_queues (TaskScheduler.init 2)
                 (BaseTask.priority (BaseTask.config Sample.taskX))))
    /\ In (BaseTask.task_id (BaseTask.config Sample.taskX))
          (PriorityQueue.ids
             (TaskScheduler.task_queues s' (BaseTask.priority (BaseTask.config Sample.taskX))))
    /\ (forall q, q <> BaseTask.priority (BaseTask.config Sample.taskX) ->
          TaskScheduler.task_queues s' q
          = TaskScheduler.task_queues (TaskScheduler.init 2) q)
    /\ (forall k, k <> BaseTask.task_id (BaseTask.config Sample.taskX) ->
          Dict.get k (TaskScheduler.tasks s')
          = Dict.get k (TaskScheduler.tasks (TaskScheduler.init 2)))
    /\ TaskScheduler.completed_tasks s'
       = TaskScheduler.completed_tasks (TaskScheduler.init 2)
    /\ TaskScheduler.running_tasks s'
       = TaskScheduler.running_tasks (TaskScheduler.init 2)
    /\ TaskScheduler._lock s' = false.
Proof.
  apply (add_task_registers (TaskScheduler.init 2) Sample.taskX 1).
  - reflexivity.
  - intros dep [].
Defined.

(** ** TaskScheduler: dispatch, continued *)

Section DispatchMoreFacts.
Import TaskScheduler.

Lemma set_queue_same (p : TaskPriority) (s : t) :
  set_queue p (task_queues s p) s = s.
Proof.
  destruct s, p; reflexivity.
Qed.

Lemma deps_completed_ext (s1 s2 : t) (deps : list string) :
  tasks s1 = tasks s2 -> completed_tasks s1 = completed_tasks s2 ->
  deps_completed s1 deps = deps_completed s2 deps.
Proof.
  intros Ht Hc. induction deps as [|d rest IH]; simpl; [reflexivity|].
  now rewrite Ht, Hc, IH.
Qed.

Lemma drain_capacity (p : TaskPriority) (now : datetime) (q : PriorityQueue.t) :
  forall s,
    max_workers (drain p now q s) = max_workers s
    /\ (Dict.len (running_tasks (drain p now q s))
        <= Nat.max (Dict.len (running_tasks s)) (max_workers s))%nat.
Proof.
  induction q as [|[[v ts] tid] rest IH]; intros s; simpl.
  - destruct p; simpl; split; auto; lia.
  - destruct (Nat.ltb (Dict.len (running_tasks s)) (max_workers s)) eqn:E.
    + apply Nat.ltb_lt in E.
      destruct (Dict.get tid (tasks s)) as [task|]; [|apply IH].
      destruct (_dependencies_completed s task); simpl.
      * destruct (IH (submit tid s)) as [H1 H2]. rewrite H1. simpl in *.
        split; [reflexivity|].
        pose proof (set_len_le tid Future.PENDING_ (running_tasks s)). lia.
      * destruct p; simpl; split; auto; lia.
    + destruct p; simpl; split; auto; lia.
Qed.

Lemma drain_only_registered (p : TaskPriority) (now : datetime) (q : PriorityQueue.t) :
  forall s id,
    In id (submitted (drain p now q s)) ->
    In id (submitted s)
    \/ (exists task,
           Dict.get id (tasks s) = Some task
           /\ _dependencies_completed s task = true
           /\ In id (PriorityQueue.ids q)).
Proof.
  induction q as [|[[v ts] tid] rest IH]; intros s id Hin; simpl in Hin.
  - left. destruct p; exact Hin.
  - destruct (Nat.ltb (Dict.len (running_tasks s)) (max_workers s));
      [|left; destruct p; exact Hin].
    destruct (Dict.get tid (tasks s)) as [task|] eqn:Ht.
    + destruct (_dependencies_completed s task) eqn:Hd; simpl in Hin;
        [|left; destruct p; exact Hin].
      destruct (IH _ _ Hin) as [Hs | [task' [Hg [Hd' Hq]]]].
      * simpl in Hs. apply in_app_or in Hs. destruct Hs as [Hs | [<- | []]];
          [now left|].
        right. exists task. simpl. auto.
      * right. exists task'. simpl in Hg. split; [exact Hg|].
        split; [|simpl; now right].
        unfold _dependencies_completed in *.
        rewrite <- Hd'. symmetry. now apply deps_completed_ext.
    + destruct (IH _ _ Hin) as [Hs | [task' [Hg [Hd' Hq]]]]; [now left|].
      right. exists task'. simpl. auto.
Qed.

End DispatchMoreFacts.

(** One turn over the four queues never takes the number of handles in
    flight above the number of workers (or above what it already was). *)
Theorem sweep_respects_capacity (now : datetime) (s : TaskScheduler.t) :
  (Dict.len (TaskScheduler.running_tasks (TaskScheduler.sweep now s))
   <= Nat.max (Dict.len (TaskScheduler.running_tasks s))
              (TaskScheduler.max_workers s))%nat.
Proof.
  unfold TaskScheduler.sweep. generalize [CRITICAL; HIGH; NORMAL; LOW].
  intros ps. revert s. induction ps as [|p ps IH]; intros s; simpl; [lia|].
  destruct (TaskScheduler.stop_event s); [apply IH|].
  specialize (IH (TaskScheduler._process_priority_queue p now s)).
  destruct (drain_capacity p now (TaskScheduler.task_queues s p) s) as [H1 H2].
  unfold TaskScheduler._process_priority_queue in *. rewrite H1 in IH. lia.
Qed.

(** What the dispatch loop submits: only ids that its queue held, that
    [tasks] knows, and whose dependencies pass the gate.  An entry whose
    task was removed is never submitted. *)
Theorem dispatch_only_registered
        (p : TaskPriority) (now : datetime) (s : TaskScheduler.t) (id : string) :
  In id (TaskScheduler.submitted (TaskScheduler._process_priority_queue p now s)) ->
  In id (TaskScheduler.submitted s)
  \/ (exists task,
         Dict.get id (TaskScheduler.tasks s) = Some task
         /\ TaskScheduler._dependencies_completed s task = true
         /\ In id (PriorityQueue.ids (TaskScheduler.task_queues s p))).
Proof.
  apply drain_only_registered.
Qed.

Lemma dispatch_only_registered_witness :
  In "Y" (TaskScheduler.submitted Sample.s4)
  \/ (exists task,
         Dict.get "Y" (TaskScheduler.tasks Sample.s4) = Some task
         /\ TaskScheduler._dependencies_completed Sample.s4 task = true
         /\ In "Y" (PriorityQueue.ids (TaskScheduler.task_queues Sample.s4 NORMAL))).
Proof.
  apply (dispatch_only_registered NORMAL 4 Sample.s4 "Y").
  vm_compute. right. now left.
Defined.

(** With every worker in flight a turn of the dispatch loop changes
    nothing: no entry is taken off any queue. *)
Theorem sweep_idle_when_full (now : datetime) (s : TaskScheduler.t) :
  (TaskScheduler.max_workers s <= Dict.len (TaskScheduler.running_tasks s))%nat ->
  TaskScheduler.sweep now s = s.
Proof.
  intros Hfull.
  assert (Step : forall p, TaskScheduler._process_priority_queue p now s = s).
  { intros p. unfold TaskScheduler._process_priority_queue.
    destruct (TaskScheduler.task_queues s p) as [|[[v ts] tid] rest] eqn:Eq; simpl.
    - rewrite <- Eq. apply set_queue_same.
    - replace (Nat.ltb (Dict.len (TaskScheduler.running_tasks s))
                       (TaskScheduler.max_workers s)) with false
        by (symmetry; apply Nat.ltb_ge; exact Hfull).
      rewrite <- Eq. apply set_queue_same. }
  unfold TaskScheduler.sweep. simpl.
  destruct (TaskScheduler.stop_event s) eqn:Es; rewrite ?Es; [reflexivity|].
  rewrite !Step, ?Es. rewrite !Step, ?Es. reflexivity.
Qed.

Lemma sweep_idle_when_full_witness :
  TaskScheduler.sweep 5
    (TaskScheduler.set_running_tasks
       [("a", Future.RUNNING_); ("b", Future.RUNNING_)] Sample.s1)
  = TaskScheduler.set_running_tasks
      [("a", Future.RUNNING_); ("b", Future.RUNNING_)] Sample.s1.
Proof.
  apply (sweep_idle_when_full 5). vm_compute. lia.
Defined.

(** ** TaskScheduler: worker completion, continued *)

Section CompletionFacts.
Import TaskScheduler.

Lemma execute_task_returns (s : t) (task task' : BaseTask.t) (w : Work)
      (r : TaskResult.t) :
  _lock s = false ->
  BaseTask.run w task = Returned r task' ->
  _execute_task task w s
  = Returned r (filed (BaseTask.task_id (BaseTask.config task)) task' r s).
Proof.
  intros Hl Hrun. unfold filed. unfold_sched. rewrite Hrun. unfold store.
  destruct s as [mw qc qh qn ql se ts rs cs st lk sb]. simpl in Hl. subst lk.
  simpl.
  destruct (Dict.mem (BaseTask.task_id (BaseTask.config task)) ts) eqn:Em; simpl.
  - rewrite mem_set, String.eqb_refl. simpl.
    destruct (Dict.mem (BaseTask.task_id (BaseTask.config task)) rs); reflexivity.
  - rewrite Em. simpl.
    destruct (Dict.mem (BaseTask.task_id (BaseTask.config task)) rs); reflexivity.
Qed.

Lemma update_average_counters (d : Q) (x : Stats.t) :
  Stats.total_tasks (update_average d x) = Stats.total_tasks x
  /\ Stats.completed_tasks (update_average d x) = Stats.completed_tasks x
  /\ Stats.failed_tasks (update_average d x) = Stats.failed_tasks x
  /\ Stats.cancelled_tasks (update_average d x) = Stats.cancelled_tasks x.
Proof.
  unfold update_average. destruct (0 <? Stats.completed_tasks x)%Z; simpl; auto.
Qed.

Lemma filed_fields (id : string) (task' : BaseTask.t) (r : TaskResult.t) (s : t) :
  Dict.wf (tasks s) -> Dict.wf (running_tasks s) ->
  Dict.mem id (tasks (filed id task' r s)) = false
  /\ Dict.get id (completed_tasks (filed id task' r s)) = Some r
  /\ Dict.mem id (running_tasks (filed id task' r s)) = false
  /\ _lock (filed id task' r s) = _lock s
  /\ (forall k, k <> id ->
        Dict.get k (tasks (filed id task' r s)) = Dict.get k (tasks s)
        /\ Dict.get k (completed_tasks (filed id task' r s))
           = Dict.get k (completed_tasks s)
        /\ Dict.get k (running_tasks (filed id task' r s))
           = Dict.get k (running_tasks s))
  /\ (forall p, task_queues (filed id task' r s) p = task_queues s p)
  /\ stats (filed id task' r s)
     = update_average (TaskResult.execution_time r)
         (count_result (TaskResult.status r) (stats s)).
Proof.
  intros Hwt Hwr. unfold filed, store.
  destruct s as [mw qc qh qn ql se ts rs cs st lk sb]. simpl in *.
  assert (Hws : forall v, Dict.wf (Dict.set id v ts)) by (intros; now apply wf_set).
  destruct (Dict.mem id ts) eqn:Em; simpl;
    rewrite ?mem_set, ?String.eqb_refl, ?Em; simpl;
    destruct (Dict.mem id rs) eqn:Er; simpl;
    repeat split; auto;
    solve [ apply get_set_same
          | now apply mem_del_same
          | now apply get_set_other
          | now apply get_del_other
          | rewrite get_del_other, get_set_other by assumption; reflexivity
          | match goal with p : TaskPriority |- _ => destruct p; reflexivity end ].
Qed.

End CompletionFacts.

(** When [task.run()] returns a result, the worker returns that result
    and files it: the task's id is no longer in [tasks] nor among the
    handles in flight, [completed_tasks] holds the result under the id, and
    the entries of every other id and all the queues are as before. *)
Theorem execute_task_files_result
        (s : TaskScheduler.t) (task task' : BaseTask.t) (w : Work) (r : TaskResult.t) :
  TaskScheduler._lock s = false ->
  Dict.wf (TaskScheduler.tasks s) ->
  Dict.wf (TaskScheduler.running_tasks s) ->
  BaseTask.run w task = Returned r task' ->
  exists s',
    TaskScheduler._execute_task task w s = Returned r s'
    /\ Dict.mem (BaseTask.task_id (BaseTask.config task)) (TaskScheduler.tasks s') = false
    /\ TaskScheduler.get_task_result (BaseTask.task_id (BaseTask.config task)) s'
       = Returned (Some r) s'
    /\ Dict.mem (BaseTask.task_id (BaseTask.config task))
                (TaskScheduler.running_tasks s') = false
    /\ TaskScheduler._lock s' = false
    /\ (forall k, k <> BaseTask.task_id (BaseTask.config task) ->
          Dict.get k (TaskScheduler.tasks s') = Dict.get k (TaskScheduler.tasks s)
          /\ Dict.get k (TaskScheduler.completed_tasks s')
             = Dict.get k (TaskScheduler.completed_tasks s)
          /\ Dict.get k (TaskScheduler.running_tasks s')
             = Dict.get k (TaskScheduler.running_tasks s))
    /\ (forall p, TaskScheduler.task_queues s' p = TaskScheduler.task_queues s p).
Proof.
  intros Hl Hwt Hwr Hrun.
  exists (filed (BaseTask.task_id (BaseTask.config task)) task' r s).
  destruct (filed_fields (BaseTask.task_id (BaseTask.config task)) task' r s Hwt Hwr)
    as [H1 [H2 [H3 [H4 [H5 [H6 _]]]]]].
  split; [now apply execute_task_returns|].
  split; [exact H1|].
  split; [unfold TaskScheduler.get_task_result, gets; now rewrite H2|].
  split; [exact H3|]. split; [congruence|]. split; assumption.
Qed.

Lemma execute_task_files_result_witness :
  exists s',
    TaskScheduler._execute_task Sample.taskX Sample.work_failing Sample.s2
    = Returned (TaskResult.mk "X" FAILED [] (Some "Error en tarea first: boom")
                  (total_seconds 4000000 0) (Some 0%N) (Some 4000000%N) 0 []) s'
    /\ Dict.mem (BaseTask.task_id (BaseTask.config Sample.taskX))
                (TaskScheduler.tasks s') = false
    /\ TaskScheduler.get_task_result (BaseTask.task_id (BaseTask.config Sample.taskX)) s'
       = Returned
           (Some (TaskResult.mk "X" FAILED [] (Some "Error en tarea first: boom")
                    (total_seconds 4000000 0) (Some 0%N) (Some 4000000%N) 0 [])) s'
    /\ Dict.mem (BaseTask.task_id (BaseTask.config Sample.taskX))
                (TaskScheduler.running_tasks s') = false
    /\ TaskScheduler._lock s' = false
    /\ (forall k, k <> BaseTask.task_id (BaseTask.config Sample.taskX) ->
          Dict.get k (TaskScheduler.tasks s') = Dict.get k (TaskScheduler.tasks Sample.s2)
          /\ Dict.get k (TaskScheduler.completed_tasks s')
             = Dict.get k (TaskScheduler.completed_tasks Sample.s2)
          /\ Dict.get k (TaskScheduler.running_tasks s')
             = Dict.get k (TaskScheduler.running_tasks Sample.s2))
    /\ (forall p, TaskScheduler.task_queues s' p = TaskScheduler.task_queues Sample.s2 p).
Proof.
  eapply (execute_task_files_result Sample.s2 Sample.taskX _ Sample.work_failing).
  - reflexivity.
  - vm_compute. repeat constructor. intros [].
  - vm_compute. repeat constructor. intros [].
  - vm_compute. reflexivity.
Defined.

(** A result with status TIMEOUT is filed but counted nowhere: the
    submitted, completed, failed and cancelled counters are all as before. *)
Theorem timeout_result_not_counted
        (s : TaskScheduler.t) (task task' : BaseTask.t) (w : Work) (r : TaskResult.t) :
  TaskScheduler._lock s = false ->
  BaseTask.run w task = Returned r task' ->
  TaskResult.status r = TIMEOUT ->
  exists s',
    TaskScheduler._execute_task task w s = Returned r s'
    /\ Dict.get (BaseTask.task_id (BaseTask.config task)) (TaskScheduler.completed_tasks s')
       = Some r
    /\ Stats.total_tasks (TaskScheduler.stats s')
       = Stats.total_tasks (TaskScheduler.stats s)
    /\ Stats.completed_tasks (TaskScheduler.stats s')
       = Stats.completed_tasks (TaskScheduler.stats s)
    /\ Stats.failed_tasks (TaskScheduler.stats s')
       = Stats.failed_tasks (TaskScheduler.stats s)
    /\ Stats.cancelled_tasks (TaskScheduler.stats s')
       = Stats.cancelled_tasks (TaskScheduler.stats s).
Proof.
  intros Hl Hrun Hst.
  exists (filed (BaseTask.task_id (BaseTask.config task)) task' r s).
  split; [now apply execute_task_returns|].
  assert (Hstats : TaskScheduler.stats
                     (filed (BaseTask.task_id (BaseTask.config task)) task' r s)
                   = TaskScheduler.update_average (TaskResult.execution_time r)
                       (TaskScheduler.stats s)
                   /\ Dict.get (BaseTask.task_id (BaseTask.config task))
                        (TaskScheduler.completed_tasks
                           (filed (BaseTask.task_id (BaseTask.config task)) task' r s))
                      = Some r).
  { unfold filed, TaskScheduler.store. rewrite Hst.
    destruct s as [mw qc qh qn ql se ts rs cs st lk sb]. simpl.
    destruct (Dict.mem (BaseTask.task_id (BaseTask.config task)) ts) eqn:Em; simpl;
      rewrite ?mem_set, ?String.eqb_refl, ?Em; simpl;
      destruct (Dict.mem (BaseTask.task_id (BaseTask.config task)) rs); simpl;
      split; auto using get_set_same. }
  destruct Hstats as [-> Hget]. split; [exact Hget|].
  apply update_average_counters.
Qed.

Lemma timeout_result_not_counted_witness :
  exists s',
    TaskScheduler._execute_task Sample.taskX
      (mkWork 10 20 None (ExecReturns None) None) Sample.s2
    = Returned (TaskResult.mk "X" TIMEOUT [] (Some "Tiempo de ejecución excedido")
                  (total_seconds 20 10) (Some 10%N) (Some 20%N) 0 []) s'
    /\ Dict.get (BaseTask.task_id (BaseTask.config Sample.taskX))
                (TaskScheduler.completed_tasks s')
       = Some (TaskResult.mk "X" TIMEOUT [] (Some "Tiempo de ejecución excedido")
                 (total_seconds 20 10) (Some 10%N) (Some 20%N) 0 [])
    /\ Stats.total_tasks (TaskScheduler.stats s')
       = Stats.total_tasks (TaskScheduler.stats Sample.s2)
    /\ Stats.completed_tasks (TaskScheduler.stats s')
       = Stats.completed_tasks (TaskScheduler.stats Sample.s2)
    /\ Stats.failed_tasks (TaskScheduler.stats s')
       = Stats.failed_tasks (TaskScheduler.stats Sample.s2)
    /\ Stats.cancelled_tasks (TaskScheduler.stats s')
       = Stats.cancelled_tasks (TaskScheduler.stats Sample.s2).
Proof.
  eapply (timeout_result_not_counted Sample.s2 Sample.taskX _
            (mkWork 10 20 None (ExecReturns None) None)).
  - reflexivity.
  - vm_compute. reflexivity.
  - reflexivity.
Defined.

(** A task whose work succeeds never leaves its worker: [task.run()]
    blocks, so the worker blocks with it; the handle stays in
    [running_tasks], nothing is filed in [completed_tasks], no counter
    moves, and the scheduler's own lock is not taken. *)
Theorem successful_task_keeps_worker
        (s : TaskScheduler.t) (task : BaseTask.t) (w : Work) (r : option PyDict) :
  BaseTask.status task = PENDING ->
  BaseTask._lock task = false ->
  BaseTask._cancelled task = false ->
  completes_in_time w (BaseTask.timeout (BaseTask.config task)) ->
  cancel_poll w = None ->
  execute_outcome w = ExecReturns r ->
  exists s',
    TaskScheduler._execute_task task w s = Blocked s'
    /\ TaskScheduler.running_tasks s' = TaskScheduler.running_tasks s
    /\ TaskScheduler.completed_tasks s' = TaskScheduler.completed_tasks s
    /\ TaskScheduler.stats s' = TaskScheduler.stats s
    /\ TaskScheduler._lock s' = TaskScheduler._lock s.
Proof.
  intros Hs Hl Hc Hin Hcp Ho.
  destruct (run_success_blocks w task r Hs Hl Hc Hin Hcp Ho) as [x' [Hrun _]].
  exists (TaskScheduler.store (BaseTask.task_id (BaseTask.config task)) x' s).
  split.
  { unfold_sched. rewrite Hrun. reflexivity. }
  unfold TaskScheduler.store.
  destruct (Dict.mem (BaseTask.task_id (BaseTask.config task)) (TaskScheduler.tasks s));
    repeat split.
Qed.

Lemma successful_task_keeps_worker_witness :
  exists s',
    TaskScheduler._execute_task Sample.taskX Sample.work_ok Sample.s2 = Blocked s'
    /\ TaskScheduler.running_tasks s' = TaskScheduler.running_tasks Sample.s2
    /\ TaskScheduler.completed_tasks s' = TaskScheduler.completed_tasks Sample.s2
    /\ TaskScheduler.stats s' = TaskScheduler.stats Sample.s2
    /\ TaskScheduler._lock s' = TaskScheduler._lock Sample.s2.
Proof.
  apply (successful_task_keeps_worker Sample.s2 Sample.taskX Sample.work_ok
           (Some Sample.payload)); try reflexivity.
  exists 2%nat. split; [reflexivity|]. vm_compute. lia.
Defined.

(** ** TaskScheduler: cancel, remove, pause *)

Ltac unfold_control :=
  unfold TaskScheduler.remove_task, TaskSchedulerControl.pause_task,
    TaskSchedulerControl.resume_task, TaskSchedulerControl._cancel_running_tasks;
  unfold_sched.

Lemma get_none_of_mem {V : Type} (k : string) (d : Dict.t V) :
  Dict.mem k d = false -> Dict.get k d = None.
Proof.
  unfold Dict.mem. destruct (Dict.get k d); [discriminate | reflexivity].
Qed.

Lemma mem_of_get {V : Type} (k : string) (v : V) (d : Dict.t V) :
  Dict.get k d = Some v -> Dict.mem k d = true.
Proof.
  unfold Dict.mem. now intros ->.
Qed.

(** An id that the scheduler does not know: [cancel_task] and
    [remove_task] return [False] and change nothing. *)
Theorem cancel_remove_unknown (s : TaskScheduler.t) (task_id : string) :
  TaskScheduler._lock s = false ->
  Dict.mem task_id (TaskScheduler.tasks s) = false ->
  Dict.mem task_id (TaskScheduler.running_tasks s) = false ->
  TaskScheduler.cancel_task task_id s = Returned false s
  /\ TaskScheduler.remove_task task_id s = Returned false s.
Proof.
  intros Hl Ht Hr.
  apply get_none_of_mem in Ht. apply get_none_of_mem in Hr.
  unfold_control.
  destruct s as [mw qc qh qn ql se ts rs cs st lk sb]. simpl in *. subst lk. simpl.
  rewrite Hr. simpl. rewrite Ht. split; reflexivity.
Qed.

Lemma cancel_remove_unknown_witness :
  TaskScheduler.cancel_task "nobody" Sample.s1 = Returned false Sample.s1
  /\ TaskScheduler.remove_task "nobody" Sample.s1 = Returned false Sample.s1.
Proof.
  apply (cancel_remove_unknown Sample.s1 "nobody"); reflexivity.
Defined.

(** [cancel_task] on a PENDING task that has not been dispatched never
    returns, and it stops with the scheduler's lock held: from then on
    [add_task], the clean-up of the dispatch loop and [get_all_tasks] block
    as well. *)
Theorem cancel_task_pending_blocks_scheduler
        (s : TaskScheduler.t) (task_id : string) (task : BaseTask.t) :
  TaskScheduler._lock s = false ->
  Dict.mem task_id (TaskScheduler.running_tasks s) = false ->
  Dict.get task_id (TaskScheduler.tasks s) = Some task ->
  BaseTask.status task = PENDING ->
  BaseTask._lock task = false ->
  exists s',
    TaskScheduler.cancel_task task_id s = Blocked s'
    /\ TaskScheduler._lock s' = true
    /\ Dict.get task_id (TaskScheduler.tasks s') = Some (BaseTask.set_lock true task)
    /\ (forall t' now, TaskScheduler.add_task t' now s' = Blocked s')
    /\ (forall n, TaskScheduler._cleanup_completed_tasks n s' = Blocked s')
    /\ TaskScheduler.get_all_tasks s' = Blocked s'.
Proof.
  intros Hl Hr Ht Hs Htl.
  pose proof (mem_of_get _ _ _ Ht) as Hm.
  apply get_none_of_mem in Hr.
  exists (TaskScheduler.set_tasks
            (Dict.set task_id (BaseTask.set_lock true task) (TaskScheduler.tasks s))
            (TaskScheduler.set_lock true s)).
  split.
  { unfold_sched. unfold TaskScheduler.store.
    destruct s as [mw qc qh qn ql se ts rs cs st lk sb]. simpl in *. subst lk. simpl.
    rewrite Hr. simpl. rewrite Ht.
    rewrite (cancel_pending_blocks task Hs Htl). simpl. rewrite Hm. reflexivity. }
  split; [reflexivity|].
  split; [simpl; apply get_set_same|].
  repeat split.
Qed.

Lemma cancel_task_pending_blocks_scheduler_witness :
  exists s',
    TaskScheduler.cancel_task "X" Sample.s1 = Blocked s'
    /\ TaskScheduler._lock s' = true
    /\ Dict.get "X" (TaskScheduler.tasks s') = Some (BaseTask.set_lock true Sample.taskX)
    /\ (forall t' now, TaskScheduler.add_task t' now s' = Blocked s')
    /\ (forall n, TaskScheduler._cleanup_completed_tasks n s' = Blocked s')
    /\ TaskScheduler.get_all_tasks s' = Blocked s'.
Proof.
  apply (cancel_task_pending_blocks_scheduler Sample.s1 "X" Sample.taskX);
    reflexivity.
Defined.

(** [cancel_task] on a task whose future has not started: the future is
    cancelled, its handle leaves [running_tasks], and [True] comes back;
    the task itself is not touched and stays in [tasks] as it was. *)
Theorem cancel_task_unstarted_future (s : TaskScheduler.t) (task_id : string) :
  TaskScheduler._lock s = false ->
  Dict.wf (TaskScheduler.running_tasks s) ->
  Dict.get task_id (TaskScheduler.running_tasks s) = Some Future.PENDING_ ->
  exists s',
    TaskScheduler.cancel_task task_id s = Returned true s'
    /\ Dict.mem task_id (TaskScheduler.running_tasks s') = false
    /\ TaskScheduler.tasks s' = TaskScheduler.tasks s
    /\ TaskScheduler.completed_tasks s' = TaskScheduler.completed_tasks s
    /\ (forall p, TaskScheduler.task_queues s' p = TaskScheduler.task_queues s p)
    /\ TaskScheduler._lock s' = false.
Proof.
  intros Hl Hwf Hr.
  exists (TaskScheduler.set_running_tasks
            (Dict.del task_id (TaskScheduler.running_tasks s)) s).
  split.
  { unfold_sched.
    destruct s as [mw qc qh qn ql se ts rs cs st lk sb]. simpl in *. subst lk. simpl.
    rewrite Hr. reflexivity. }
  split; [simpl; now apply mem_del_same|].
  repeat split; auto; try (destruct p; reflexivity).
Qed.

Lemma cancel_task_unstarted_future_witness :
  exists s',
    TaskScheduler.cancel_task "X" Sample.s2 = Returned true s'
    /\ Dict.mem "X" (TaskScheduler.running_tasks s') = false
    /\ TaskScheduler.tasks s' = TaskScheduler.tasks Sample.s2
    /\ TaskScheduler.completed_tasks s' = TaskScheduler.completed_tasks Sample.s2
    /\ (forall p, TaskScheduler.task_queues s' p = TaskScheduler.task_queues Sample.s2 p)
    /\ TaskScheduler._lock s' = false.
Proof.
  apply (cancel_task_unstarted_future Sample.s2 "X").
  - reflexivity.
  - vm_compute. repeat constructor. intros [].
  - reflexivity.
Defined.

(** [cancel_task] on a task that a worker is running: the future cannot be
    cancelled any more, so the call falls through to the task's [cancel()],
    which sets the cancellation flag; the handle stays in [running_tasks]
    and the status is still RUNNING. *)
Theorem cancel_task_running_sets_flag
        (s : TaskScheduler.t) (task_id : string) (task : BaseTask.t) :
  TaskScheduler._lock s = false ->
  Dict.get task_id (TaskScheduler.running_tasks s) = Some Future.RUNNING_ ->
  Dict.get task_id (TaskScheduler.tasks s) = Some task ->
  BaseTask.status task = RUNNING ->
  BaseTask._lock task = false ->
  TaskScheduler.cancel_task task_id s
  = Returned true
      (TaskScheduler.set_tasks
         (Dict.set task_id (BaseTask.set_cancelled true task) (TaskScheduler.tasks s)) s).
Proof.
  intros Hl Hr Ht Hs Htl.
  pose proof (mem_of_get _ _ _ Ht) as Hm.
  unfold_sched. unfold TaskScheduler.store.
  destruct s as [mw qc qh qn ql se ts rs cs st lk sb]. simpl in *. subst lk. simpl.
  rewrite Hr. simpl. rewrite Ht.
  rewrite (cancel_running_sets_flag task Hs Htl). simpl. rewrite Hm. reflexivity.
Qed.

Lemma cancel_task_running_sets_flag_witness :
  TaskScheduler.cancel_task "X"
    (TaskScheduler.set_tasks [("X", BaseTask.set_status RUNNING Sample.taskX)]
       Sample.counted)
  = Returned true
      (TaskScheduler.set_tasks
         (Dict.set "X"
            (BaseTask.set_cancelled true (BaseTask.set_status RUNNING Sample.taskX))
            (TaskScheduler.tasks
               (TaskScheduler.set_tasks
                  [("X", BaseTask.set_status RUNNING Sample.taskX)] Sample.counted)))
         (TaskScheduler.set_tasks
            [("X", BaseTask.set_status RUNNING Sample.taskX)] Sample.counted)).
Proof.
  apply (cancel_task_running_sets_flag
           (TaskScheduler.set_tasks
              [("X", BaseTask.set_status RUNNING Sample.taskX)] Sample.counted)
           "X" (BaseTask.set_status RUNNING Sample.taskX)); reflexivity.
Defined.

(** [remove_task] on a RUNNING task returns [True]; afterwards the id is
    neither in [tasks] nor among the handles, and every other task and
    handle is as before.  The queues are not touched. *)
Theorem remove_task_unregisters
        (s : TaskScheduler.t) (task_id : string) (task : BaseTask.t) :
  TaskScheduler._lock s = false ->
  Dict.wf (TaskScheduler.tasks s) ->
  Dict.wf (TaskScheduler.running_tasks s) ->
  Dict.get task_id (TaskScheduler.tasks s) = Some task ->
  BaseTask.status task = RUNNING ->
  BaseTask._lock task = false ->
  exists s',
    TaskScheduler.remove_task task_id s = Returned true s'
    /\ Dict.mem task_id (TaskScheduler.tasks s') = false
    /\ Dict.mem task_id (TaskScheduler.running_tasks s') = false
    /\ (forall k, k <> task_id ->
          Dict.get k (TaskScheduler.tasks s') = Dict.get k (TaskScheduler.tasks s)
          /\ Dict.get k (TaskScheduler.running_tasks s')
             = Dict.get k (TaskScheduler.running_tasks s))
    /\ (forall p, TaskScheduler.task_queues s' p = TaskScheduler.task_queues s p)
    /\ TaskScheduler._lock s' = false.
Proof.
  intros Hl Hwt Hwr Ht Hs Htl.
  pose proof (mem_of_get _ _ _ Ht) as Hm.
  set (rs' := match Dict.get task_id (TaskScheduler.running_tasks s) with
              | Some _ => Dict.del task_id (TaskScheduler.running_tasks s)
              | None => TaskScheduler.running_tasks s
              end).
  exists (TaskScheduler.set_tasks
            (Dict.del task_id
               (Dict.set task_id (BaseTask.set_cancelled true task)
                  (TaskScheduler.tasks s)))
            (TaskScheduler.set_running_tasks rs' s)).
  split.
  { unfold_control. unfold TaskScheduler.store. subst rs'.
    destruct s as [mw qc qh qn ql se ts rs cs st lk sb]. simpl in *. subst lk. simpl.
    destruct (Dict.get task_id rs) eqn:Er; simpl; rewrite Ht;
      rewrite (cancel_running_sets_flag task Hs Htl); simpl; rewrite Hm;
      reflexivity. }
  simpl. split; [apply mem_del_same; now apply wf_set|].
  split.
  { subst rs'. destruct (Dict.get task_id (TaskScheduler.running_tasks s)) eqn:Er;
      [now apply mem_del_same | unfold Dict.mem; now rewrite Er]. }
  split.
  { intros k Hk. split.
    - rewrite get_del_other, get_set_other by assumption. reflexivity.
    - subst rs'. destruct (Dict.get task_id (TaskScheduler.running_tasks s));
        [now apply get_del_other | reflexivity]. }
  split; [intros []; reflexivity|]. exact Hl.
Qed.

Lemma remove_task_unregisters_witness :
  exists s',
    TaskScheduler.remove_task "X"
      (TaskScheduler.set_tasks [("X", BaseTask.set_status RUNNING Sample.taskX)]
         Sample.counted)
    = Returned true s'
    /\ Dict.mem "X" (TaskScheduler.tasks s') = false
    /\ Dict.mem "X" (TaskScheduler.running_tasks s') = false
    /\ (forall k, k <> "X" ->
          Dict.get k (TaskScheduler.tasks s')
          = Dict.get k (TaskScheduler.tasks
                          (TaskScheduler.set_tasks
                             [("X", BaseTask.set_status RUNNING Sample.taskX)]
                             Sample.counted))
          /\ Dict.get k (TaskScheduler.running_tasks s')
             = Dict.get k (TaskScheduler.running_tasks
                             (TaskScheduler.set_tasks
                                [("X", BaseTask.set_status RUNNING Sample.taskX)]
                                Sample.counted)))
    /\ (forall p, TaskScheduler.task_queues s' p
                  = TaskScheduler.task_queues
                      (TaskScheduler.set_tasks
                         [("X", BaseTask.set_status RUNNING Sample.taskX)]
                         Sample.counted) p)
    /\ TaskScheduler._lock s' = false.
Proof.
  apply (remove_task_unregisters
           (TaskScheduler.set_tasks
              [("X", BaseTask.set_status RUNNING Sample.taskX)] Sample.counted)
           "X" (BaseTask.set_status RUNNING Sample.taskX));
    try reflexivity; vm_compute; repeat constructor; intros [].
Defined.

(** [pause_task] on a RUNNING task never returns: the task's [pause()]
    blocks, and [pause_task] stops with the scheduler's lock held.  The
    pause flag is set, the status is still RUNNING. *)
Theorem pause_task_running_blocks
        (s : TaskScheduler.t) (task_id : string) (task : BaseTask.t) :
  TaskScheduler._lock s = false ->
  Dict.get task_id (TaskScheduler.tasks s) = Some task ->
  BaseTask.status task = RUNNING ->
  BaseTask._lock task = false ->
  exists s' task',
    TaskSchedulerControl.pause_task task_id s = Blocked s'
    /\ TaskScheduler._lock s' = true
    /\ Dict.get task_id (TaskScheduler.tasks s') = Some task'
    /\ BaseTask.status task' = RUNNING
    /\ BaseTask._paused task' = true
    /\ BaseTask._lock task' = true.
Proof.
  intros Hl Ht Hs Htl.
  pose proof (mem_of_get _ _ _ Ht) as Hm.
  exists (TaskScheduler.set_tasks
            (Dict.set task_id (BaseTask.set_paused true (BaseTask.set_lock true task))
               (TaskScheduler.tasks s))
            (TaskScheduler.set_lock true s)).
  exists (BaseTask.set_paused true (BaseTask.set_lock true task)).
  split.
  { unfold_control. unfold TaskScheduler.store.
    destruct s as [mw qc qh qn ql se ts rs cs st lk sb]. simpl in *. subst lk. simpl.
    rewrite Ht.
    assert (Hp : BaseTask.pause task
                 = Blocked (BaseTask.set_paused true (BaseTask.set_lock true task)))
      by (destruct task; simpl in *; subst; reflexivity).
    rewrite Hp. simpl. rewrite Hm. reflexivity. }
  split; [reflexivity|]. split; [simpl; apply get_set_same|].
  destruct task; simpl in *; auto.
Qed.

Lemma pause_task_running_blocks_witness :
  exists s' task',
    TaskSchedulerControl.pause_task "X"
      (TaskScheduler.set_tasks [("X", BaseTask.set_status RUNNING Sample.taskX)]
         Sample.counted)
    = Blocked s'
    /\ TaskScheduler._lock s' = true
    /\ Dict.get "X" (TaskScheduler.tasks s') = Some task'
    /\ BaseTask.status task' = RUNNING
    /\ BaseTask._paused task' = true
    /\ BaseTask._lock task' = true.
Proof.
  apply (pause_task_running_blocks
           (TaskScheduler.set_tasks
              [("X", BaseTask.set_status RUNNING Sample.taskX)] Sample.counted)
           "X" (BaseTask.set_status RUNNING Sample.taskX)); reflexivity.
Defined.

(** ** TaskScheduler: listing, continued *)

Section ListingMoreFacts.
Import TaskScheduler.

Lemma get_info_blocks (task : BaseTask.t) :
  BaseTask._lock task = true -> BaseTask.get_info task = Blocked task.
Proof.
  intros Hl. unfold_task. now rewrite Hl.
Qed.

Lemma collect_tasks_blocks (l : list (string * BaseTask.t)) :
  (exists id task, In (id, task) l /\ BaseTask._lock task = true) ->
  forall all s, exists s',
    collect_tasks l all s = Blocked s' /\ _lock s' = _lock s.
Proof.
  induction l as [|[k task] l IH]; intros [id [t [Hin Hl]]] all s;
    [destruct Hin|].
  simpl. unfold bind at 1. unfold on_task.
  destruct (BaseTask._lock task) eqn:Ek.
  - rewrite (get_info_blocks task Ek).
    exists (store k task s). split; [reflexivity | apply store_keeps].
  - destruct (get_info_returns task Ek) as [info ->].
    destruct Hin as [Heq | Hin]; [inversion Heq; subst; congruence|].
    destruct (IH (ex_intro _ id (ex_intro _ t (conj Hin Hl)))
                 (Dict.set k (TaskEntry info) all) (store k task s))
      as [s' [Hrun Hk]].
    exists s'. split; [exact Hrun|].
    rewrite Hk. apply store_keeps.
Qed.

End ListingMoreFacts.

(** One task whose lock is held (a task stuck in [cancel()] or in
    [run()], say) is enough to stop [get_all_tasks] for good, and it stops
    with the scheduler's lock held. *)
Theorem get_all_tasks_blocks_on_locked_task (s : TaskScheduler.t) :
  TaskScheduler._lock s = false ->
  (exists id task,
      In (id, task) (TaskScheduler.tasks s) /\ BaseTask._lock task = true) ->
  exists s',
    TaskScheduler.get_all_tasks s = Blocked s'
    /\ TaskScheduler._lock s' = true.
Proof.
  intros Hl Hex.
  destruct (collect_tasks_blocks (TaskScheduler.tasks s) Hex []
              (TaskScheduler.set_lock true s)) as [s' [Hrun Hk]].
  exists s'. split; [|rewrite Hk; destruct s; reflexivity].
  unfold_sched. rewrite Hl. simpl.
  replace (TaskScheduler.tasks (TaskScheduler.set_lock true s))
    with (TaskScheduler.tasks s) by (destruct s; reflexivity).
  rewrite Hrun. reflexivity.
Qed.

Lemma get_all_tasks_blocks_on_locked_task_witness :
  exists s',
    TaskScheduler.get_all_tasks
      (TaskScheduler.set_tasks [("X", BaseTask.set_lock true Sample.taskX)] Sample.s1)
    = Blocked s'
    /\ TaskScheduler._lock s' = true.
Proof.
  apply (get_all_tasks_blocks_on_locked_task
           (TaskScheduler.set_tasks [("X", BaseTask.set_lock true Sample.taskX)]
              Sample.s1)).
  - reflexivity.
  - exists "X", (BaseTask.set_lock true Sample.taskX). split; [now left | reflexivity].
Defined.

(** ** create_task_chain *)

Section ChainFacts.
Import TaskScheduler.

Lemma add_task_returns (s : t) (task : BaseTask.t) (now : datetime) :
  _lock s = false ->
  (forall dep, In dep (BaseTask.dependencies (BaseTask.config task)) ->
     Dict.mem dep (tasks s) = true \/ Dict.mem dep (completed_tasks s) = true) ->
  add_task task now s
  = Returned (BaseTask.task_id (BaseTask.config task))
      (set_queue (BaseTask.priority (BaseTask.config task))
         (PriorityQueue.put
            (priority_value (BaseTask.priority (BaseTask.config task)), now,
             BaseTask.task_id (BaseTask.config task))
            (task_queues s (BaseTask.priority (BaseTask.config task))))
         (set_stats (count_submitted (stats s))
            (set_tasks
               (Dict.set (BaseTask.task_id (BaseTask.config task)) task (tasks s)) s))).
Proof.
  intros Hl Hdeps. unfold_sched. rewrite Hl.
  rewrite (check_dependencies_ok (set_lock true s)) by (destruct s; exact Hdeps).
  destruct s as [mw qc qh qn ql se ts rs cs st lk sb]. simpl in Hl. subst lk.
  destruct (BaseTask.priority (BaseTask.config task)) eqn:Ep; simpl; rewrite ?Ep;
    reflexivity.
Qed.

Lemma chain_from_links (tasks0 : list (BaseTask.t * datetime)) :
  forall prev acc s,
    _lock s = false ->
    (forall p, prev = Some p -> Dict.mem p (tasks s) = true) ->
    (forall task now dep,
        In (task, now) tasks0 ->
        In dep (BaseTask.dependencies (BaseTask.config task)) ->
        Dict.mem dep (tasks s) = true \/ Dict.mem dep (completed_tasks s) = true) ->
    NoDup (chain_ids tasks0) ->
    exists s',
      chain_from prev tasks0 acc s = Returned (acc ++ chain_ids tasks0) s'
      /\ _lock s' = false
      /\ chained prev tasks0 (tasks s')
      /\ (forall k, ~ In k (chain_ids tasks0) ->
            Dict.get k (tasks s') = Dict.get k (tasks s))
      /\ completed_tasks s' = completed_tasks s
      /\ Stats.total_tasks (stats s')
         = (Stats.total_tasks (stats s) + Z.of_nat (List.length tasks0))%Z.
Proof.
  induction tasks0 as [|[task now] rest IH]; intros prev acc s Hl Hprev Hdeps Hnd.
  - simpl. exists s. rewrite app_nil_r.
    repeat split; auto. simpl. lia.
  - simpl in Hnd. inversion Hnd as [|? ? Hnin Hnd']; subst.
    set (task' := match prev with
                  | Some p => append_dependency p task
                  | None => task
                  end).
    assert (Hid : BaseTask.task_id (BaseTask.config task')
                  = BaseTask.task_id (BaseTask.config task))
      by (subst task'; destruct prev; reflexivity).
    assert (Hpr : BaseTask.priority (BaseTask.config task')
                  = BaseTask.priority (BaseTask.config task))
      by (subst task'; destruct prev; reflexivity).
    assert (Hd' : forall dep,
               In dep (BaseTask.dependencies (BaseTask.config task')) ->
               Dict.mem dep (tasks s) = true
               \/ Dict.mem dep (completed_tasks s) = true).
    { intros dep Hin. subst task'. destruct prev as [p|].
      - simpl in Hin. apply in_app_or in Hin. destruct Hin as [Hin | [<- | []]].
        + apply (Hdeps task now dep); [now left | exact Hin].
        + left. now apply Hprev.
      - apply (Hdeps task now dep); [now left | exact Hin]. }
    simpl. fold task'. unfold bind at 1.
    rewrite (add_task_returns s task' now Hl Hd'). rewrite Hid, Hpr.
    set (id := BaseTask.task_id (BaseTask.config task)).
    set (s1 := set_queue _ _ _).
    assert (Ht1 : tasks s1 = Dict.set id task' (tasks s))
      by (subst s1; destruct (BaseTask.priority (BaseTask.config task)); reflexivity).
    assert (Hc1 : completed_tasks s1 = completed_tasks s)
      by (subst s1; destruct (BaseTask.priority (BaseTask.config task)); reflexivity).
    assert (Hl1 : _lock s1 = false)
      by (subst s1; destruct (BaseTask.priority (BaseTask.config task)); exact Hl).
    assert (Hs1 : Stats.total_tasks (stats s1) = (Stats.total_tasks (stats s) + 1)%Z)
      by (subst s1; destruct (BaseTask.priority (BaseTask.config task)); reflexivity).
    destruct (IH (Some id) (acc ++ [id]) s1 Hl1) as [s' [Hrun [Hl' [Hch [Hkeep [Hc' Hst']]]]]].
    { intros p Hp. inversion Hp; subst p. rewrite Ht1, mem_set, String.eqb_refl.
      reflexivity. }
    { intros t n dep Hin Hdep. rewrite Ht1, Hc1, mem_set.
      destruct (Hdeps t n dep (or_intror Hin) Hdep) as [-> | ->]; auto.
      left. apply orb_true_r. }
    { exact Hnd'. }
    exists s'. split.
    { rewrite Hrun. rewrite <- app_assoc. reflexivity. }
    split; [exact Hl'|]. split.
    { simpl. split; [|exact Hch].
      fold id. rewrite (Hkeep id Hnin), Ht1. apply get_set_same. }
    split.
    { intros k Hk. simpl in Hk.
      rewrite Hkeep by tauto. rewrite Ht1. apply get_set_other.
      intros ->. apply Hk. now left. }
    split; [congruence|].
    rewrite Hst', Hs1. simpl List.length. lia.
Qed.

End ChainFacts.

(** [create_task_chain] on tasks with distinct ids whose own dependencies
    are known: it returns their ids in order, every task is registered, the
    first as it was given and each later one with its predecessor's id
    appended to its dependencies, and the submitted counter grows by the
    number of tasks.  Tasks registered before, under other ids, are as they
    were. *)
Theorem create_task_chain_links
        (tasks0 : list (BaseTask.t * datetime)) (s : TaskScheduler.t) :
  TaskScheduler._lock s = false ->
  (forall task now dep,
      In (task, now) tasks0 ->
      In dep (BaseTask.dependencies (BaseTask.config task)) ->
      Dict.mem dep (TaskScheduler.tasks s) = true
      \/ Dict.mem dep (TaskScheduler.completed_tasks s) = true) ->
  NoDup (chain_ids tasks0) ->
  exists s',
    create_task_chain tasks0 s = Returned (chain_ids tasks0) s'
    /\ TaskScheduler._lock s' = false
    /\ chained None tasks0 (TaskScheduler.tasks s')
    /\ (forall k, ~ In k (chain_ids tasks0) ->
          Dict.get k (TaskScheduler.tasks s') = Dict.get k (TaskScheduler.tasks s))
    /\ Stats.total_tasks (TaskScheduler.stats s')
       = (Stats.total_tasks (TaskScheduler.stats s) + Z.of_nat (List.length tasks0))%Z.
Proof.
  intros Hl Hdeps Hnd.
  destruct (chain_from_links tasks0 None [] s Hl) as [s' [Hrun [H1 [H2 [H3 [_ H4]]]]]];
    [discriminate | exact Hdeps | exact Hnd |].
  exists s'. split; [|auto].
  destruct tasks0; [|exact Hrun].
  simpl in Hrun. exact Hrun.
Qed.

Lemma create_task_chain_links_witness :
  exists s',
    create_task_chain [(Sample.taskX, 1%N); (Sample.fresh, 2%N)] (TaskScheduler.init 2)
    = Returned (chain_ids [(Sample.taskX, 1%N); (Sample.fresh, 2%N)]) s'
    /\ TaskScheduler._lock s' = false
    /\ chained None [(Sample.taskX, 1%N); (Sample.fresh, 2%N)] (TaskScheduler.tasks s')
    /\ (forall k, ~ In k (chain_ids [(Sample.taskX, 1%N); (Sample.fresh, 2%N)]) ->
          Dict.get k (TaskScheduler.tasks s')
          = Dict.get k (TaskScheduler.tasks (TaskScheduler.init 2)))
    /\ Stats.total_tasks (TaskScheduler.stats s')
       = (Stats.total_tasks (TaskScheduler.stats (TaskScheduler.init 2))
          + Z.of_nat (List.length [(Sample.taskX, 1%N); (Sample.fresh, 2%N)]))%Z.
Proof.
  apply (create_task_chain_links [(Sample.taskX, 1%N); (Sample.fresh, 2%N)]
           (TaskScheduler.init 2)).
  - reflexivity.
  - intros task now dep [H | [H | []]] Hdep; inversion H; subst; destruct Hdep.
  - vm_compute. repeat constructor; simpl; intuition discriminate.
Defined.

(** ** _cancel_running_tasks *)

Section CancelAllFacts.
Import TaskScheduler.

Lemma cancel_non_pending (task : BaseTask.t) :
  BaseTask.status task <> PENDING -> BaseTask._lock task = false ->
  BaseTask.cancel task
  = Returned tt (if status_eqb (BaseTask.status task) RUNNING
                 then BaseTask.set_cancelled true task else task).
Proof.
  destruct task as [c st p s e et er rd md ca pa lk ev]; simpl.
  intros Hs ->. destruct st; try congruence; reflexivity.
Qed.

(** What one pass of the loop leaves of the tasks: every task is still
    there with the status and lock it had, no flag was cleared, and the
    RUNNING tasks among [l] have their flag set. *)
Lemma cancel_each_spec (l : list (string * Future.t)) :
  forall s,
    (forall k task, In k (Dict.keys l) -> Dict.get k (tasks s) = Some task ->
       BaseTask.status task <> PENDING /\ BaseTask._lock task = false) ->
    exists s',
      TaskSchedulerControl.cancel_each l s = Returned tt s'
      /\ _lock s' = _lock s
      /\ completed_tasks s' = completed_tasks s
      /\ (forall p, task_queues s' p = task_queues s p)
      /\ (forall k task, Dict.get k (tasks s) = Some task ->
            exists task',
              Dict.get k (tasks s') = Some task'
              /\ BaseTask.status task' = BaseTask.status task
              /\ BaseTask._lock task' = BaseTask._lock task
              /\ (BaseTask._cancelled task = true -> BaseTask._cancelled task' = true)
              /\ (In k (Dict.keys l) -> BaseTask.status task = RUNNING ->
                  BaseTask._cancelled task' = true)).
Proof.
  induction l as [|[id fut] l IH]; intros s Inv.
  - exists s. simpl.
    split; [reflexivity|]. split; [reflexivity|]. split; [reflexivity|].
    split; [reflexivity|].
    intros k task Hg. exists task.
    split; [exact Hg|]. split; [reflexivity|]. split; [reflexivity|].
    split; [auto | intros []].
  - simpl. unfold bind at 1. unfold try_except. unfold bind at 1. unfold modify at 1.
    set (s0 := if Dict.mem id (running_tasks s)
               then set_running_tasks
                      (Dict.set id (snd (Future.cancel fut)) (running_tasks s)) s
               else s).
    assert (H0 : tasks s0 = tasks s /\ _lock s0 = _lock s
                 /\ completed_tasks s0 = completed_tasks s
                 /\ forall p, task_queues s0 p = task_queues s p).
    { subst s0. destruct (Dict.mem id (running_tasks s)); repeat split;
        intros []; reflexivity. }
    destruct H0 as [Ht0 [Hl0 [Hc0 Hq0]]].
    unfold bind at 1. unfold gets at 1. rewrite Ht0.
    (* the state after the head of the list *)
    assert (Hhead : exists s1,
               match Dict.get id (tasks s) with
               | Some task => on_task id task BaseTask.cancel
               | None => ret tt
               end s0 = Returned tt s1
               /\ _lock s1 = _lock s
               /\ completed_tasks s1 = completed_tasks s
               /\ (forall p, task_queues s1 p = task_queues s p)
               /\ (forall k task, Dict.get k (tasks s) = Some task ->
                     exists task',
                       Dict.get k (tasks s1) = Some task'
                       /\ BaseTask.status task' = BaseTask.status task
                       /\ BaseTask._lock task' = BaseTask._lock task
                       /\ (BaseTask._cancelled task = true ->
                           BaseTask._cancelled task' = true)
                       /\ (k = id -> BaseTask.status task = RUNNING ->
                           BaseTask._cancelled task' = true))
               /\ (forall k, Dict.get k (tasks s) = None ->
                     Dict.get k (tasks s1) = None)).
    { destruct (Dict.get id (tasks s)) as [task|] eqn:Hg.
      - destruct (Inv id task (or_introl eq_refl) Hg) as [Hnp Hlk].
        exists (set_tasks
                  (Dict.set id
                     (if status_eqb (BaseTask.status task) RUNNING
                      then BaseTask.set_cancelled true task else task)
                     (tasks s)) s0).
        split.
        { unfold on_task. rewrite (cancel_non_pending task Hnp Hlk).
          cbv beta iota. unfold store. rewrite Ht0, (mem_of_get _ _ _ Hg).
          reflexivity. }
        simpl.
        split; [exact Hl0|]. split; [exact Hc0|].
        split; [intros p; rewrite <- Hq0; destruct p; reflexivity|].
        split.
        { intros k t Hk.
          destruct (String.eqb k id) eqn:E.
          - apply String.eqb_eq in E. subst k. rewrite get_set_same.
            rewrite Hg in Hk. inversion Hk; subst t.
            eexists. split; [reflexivity|].
            destruct task as [c st p s2 e et er rd md ca pa lk ev]; simpl in *.
            destruct st; simpl; repeat split; auto; try discriminate.
          - apply String.eqb_neq in E. rewrite get_set_other by exact E.
            exists t.
            split; [exact Hk|]. split; [reflexivity|]. split; [reflexivity|].
            split; [auto | intros ->; congruence]. }
        intros k Hk. rewrite get_set_other; [exact Hk|]. intros ->. congruence.
      - exists s0. split; [reflexivity|].
        split; [exact Hl0|]. split; [exact Hc0|]. split; [exact Hq0|].
        split.
        { intros k t Hk. rewrite Ht0. exists t.
          split; [exact Hk|]. split; [reflexivity|]. split; [reflexivity|].
          split; [auto | intros ->; congruence]. }
        intros k Hk. now rewrite Ht0. }
    destruct Hhead as [s1 [Hrun1 [Hl1 [Hc1 [Hq1 [Hr1 Hn1]]]]]].
    rewrite Hrun1.
    destruct (IH s1) as [s' [Hrun' [Hl' [Hc' [Hq' Hr']]]]].
    { intros k t1 Hin Hg1.
      destruct (Dict.get k (tasks s)) as [t|] eqn:Hg.
      - destruct (Hr1 k t Hg) as [t1' [Hg1' [Hs1 [Hk1 _]]]].
        rewrite Hg1 in Hg1'. inversion Hg1'; subst t1'.
        destruct (Inv k t (or_intror Hin) Hg) as [Hnp Hlk].
        split; congruence.
      - rewrite (Hn1 k Hg) in Hg1. discriminate. }
    exists s'. split; [exact Hrun'|].
    split; [congruence|]. split; [congruence|].
    split; [intros p; now rewrite Hq', Hq1|].
    intros k t Hg.
    destruct (Hr1 k t Hg) as [t1 [Hg1 [Hs1 [Hk1 [Hf1 Hh1]]]]].
    destruct (Hr' k t1 Hg1) as [t' [Hg' [Hs' [Hk' [Hf' Hh']]]]].
    exists t'. split; [exact Hg'|]. split; [congruence|]. split; [congruence|].
    split; [auto|].
    intros Hin Hst. simpl in Hin.
    destruct (String.eqb k id) eqn:E.
    + apply String.eqb_eq in E. apply Hf'. now apply Hh1.
    + apply String.eqb_neq in E. destruct Hin as [Hin | Hin]; [congruence|].
      apply Hh'; [exact Hin | congruence].
Qed.

End CancelAllFacts.

(** [_cancel_running_tasks], when none of the tasks in flight is still
    PENDING or has its lock held: it returns, no handle is left, the
    retained results and the queues are as before, and every task in flight
    that was RUNNING is still RUNNING with its cancellation flag set. *)
Theorem cancel_running_tasks_flags_all (s : TaskScheduler.t) :
  TaskScheduler._lock s = false ->
  (forall id task,
      In id (Dict.keys (TaskScheduler.running_tasks s)) ->
      Dict.get id (TaskScheduler.tasks s) = Some task ->
      BaseTask.status task <> PENDING /\ BaseTask._lock task = false) ->
  exists s',
    TaskSchedulerControl._cancel_running_tasks s = Returned tt s'
    /\ TaskScheduler.running_tasks s' = []
    /\ TaskScheduler._lock s' = false
    /\ TaskScheduler.completed_tasks s' = TaskScheduler.completed_tasks s
    /\ (forall p, TaskScheduler.task_queues s' p = TaskScheduler.task_queues s p)
    /\ (forall id task,
           In id (Dict.keys (TaskScheduler.running_tasks s)) ->
           Dict.get id (TaskScheduler.tasks s) = Some task ->
           BaseTask.status task = RUNNING ->
           exists task',
             Dict.get id (TaskScheduler.tasks s') = Some task'
             /\ BaseTask.status task' = RUNNING
             /\ BaseTask._cancelled task' = true).
Proof.
  intros Hl Inv.
  destruct (cancel_each_spec (TaskScheduler.running_tasks s)
              (TaskScheduler.set_lock true s))
    as [s1 [Hrun [Hl1 [Hc1 [Hq1 Hr1]]]]].
  { destruct s; exact Inv. }
  exists (TaskScheduler.set_lock false (TaskScheduler.set_running_tasks [] s1)).
  split.
  { unfold_control. rewrite Hl. simpl.
    replace (TaskScheduler.running_tasks (TaskScheduler.set_lock true s))
      with (TaskScheduler.running_tasks s) by (destruct s; reflexivity).
    rewrite Hrun. reflexivity. }
  split; [reflexivity|]. split; [reflexivity|].
  split; [simpl; rewrite Hc1; destruct s; reflexivity|].
  split.
  { intros p. transitivity (TaskScheduler.task_queues s1 p);
      [destruct s1, p; reflexivity|].
    rewrite Hq1. destruct s, p; reflexivity. }
  intros id task Hin Hg Hst.
  destruct (Hr1 id task) as [t' [Hg' [Hs' [_ [_ Hf]]]]];
    [destruct s; exact Hg|].
  exists t'. split; [destruct s1; exact Hg'|]. split; [congruence|].
  apply Hf; assumption.
Qed.

Lemma cancel_running_tasks_flags_all_witness :
  exists s',
    TaskSchedulerControl._cancel_running_tasks
      (TaskScheduler.set_tasks [("X", BaseTask.set_status RUNNING Sample.taskX)]
         Sample.counted)
    = Returned tt s'
    /\ TaskScheduler.running_tasks s' = []
    /\ TaskScheduler._lock s' = false
    /\ TaskScheduler.completed_tasks s'
       = TaskScheduler.completed_tasks
           (TaskScheduler.set_tasks [("X", BaseTask.set_status RUNNING Sample.taskX)]
              Sample.counted)
    /\ (forall p, TaskScheduler.task_queues s' p
                  = TaskScheduler.task_queues
                      (TaskScheduler.set_tasks
                         [("X", BaseTask.set_status RUNNING Sample.taskX)]
                         Sample.counted) p)
    /\ (forall id task,
           In id (Dict.keys (TaskScheduler.running_tasks
                               (TaskScheduler.set_tasks
                                  [("X", BaseTask.set_status RUNNING Sample.taskX)]
                                  Sample.counted))) ->
           Dict.get id (TaskScheduler.tasks
                          (TaskScheduler.set_tasks
                             [("X", BaseTask.set_status RUNNING Sample.taskX)]
                             Sample.counted)) = Some task ->
           BaseTask.status task = RUNNING ->
           exists task',
             Dict.get id (TaskScheduler.tasks s') = Some task'
             /\ BaseTask.status task' = RUNNING
             /\ BaseTask._cancelled task' = true).
Proof.
  apply (cancel_running_tasks_flags_all
           (TaskScheduler.set_tasks [("X", BaseTask.set_status RUNNING Sample.taskX)]
              Sample.counted)).
  - reflexivity.
  - intros id task [<- | []] Hg. vm_compute in Hg. inversion Hg; subst task.
    split; [discriminate | reflexivity].
Defined.

(** ** The dependency gate and the order of dispatch *)

Section OrderFacts.
Import TaskScheduler.

Lemma status_eqb_eq (a b : TaskStatus) : status_eqb a b = true <-> a = b.
Proof.
  destruct a, b; simpl; split; intros H; congruence.
Qed.

Lemma deps_completed_iff (s : t) (deps : list string) :
  deps_completed s deps = true <->
  forall dep, In dep deps ->
    match Dict.get dep (tasks s) with
    | Some dep_task => BaseTask.status dep_task = COMPLETED
    | None => Dict.mem dep (completed_tasks s) = true
    end.
Proof.
  induction deps as [|d rest IH]; simpl.
  - split; [intros _ dep [] | reflexivity].
  - destruct (Dict.get d (tasks s)) as [dt|] eqn:Hg.
    + destruct (status_eqb (BaseTask.status dt) COMPLETED) eqn:E; simpl.
      * apply status_eqb_eq in E. rewrite IH. split.
        -- intros H dep [<- | Hin]; [now rewrite Hg | now apply H].
        -- intros H dep Hin. apply H. now right.
      * split; [discriminate|]. intros H.
        specialize (H d (or_introl eq_refl)). rewrite Hg in H.
        apply status_eqb_eq in H. congruence.
    + destruct (Dict.mem d (completed_tasks s)) eqn:E; simpl.
      * rewrite IH. split.
        -- intros H dep [<- | Hin]; [now rewrite Hg | now apply H].
        -- intros H dep Hin. apply H. now right.
      * split; [discriminate|]. intros H.
        specialize (H d (or_introl eq_refl)). rewrite Hg in H. congruence.
Qed.

Lemma drain_full (p : TaskPriority) (now : datetime) (q : PriorityQueue.t) (s : t) :
  (max_workers s <= Dict.len (running_tasks s))%nat ->
  drain p now q s = set_queue p q s.
Proof.
  intros Hfull. destruct q as [|[[v ts] tid] rest]; simpl; [reflexivity|].
  replace (Nat.ltb (Dict.len (running_tasks s)) (max_workers s)) with false
    by (symmetry; apply Nat.ltb_ge; exact Hfull).
  reflexivity.
Qed.

Lemma process_full (p : TaskPriority) (now : datetime) (s : t) :
  (max_workers s <= Dict.len (running_tasks s))%nat ->
  _process_priority_queue p now s = s.
Proof.
  intros Hfull. unfold _process_priority_queue.
  rewrite drain_full by exact Hfull. apply set_queue_same.
Qed.

Lemma entry_leb_by_time (v : Z) (a b : datetime) (i j : string) :
  (a < b)%N ->
  PriorityQueue.entry_leb (v, a, i) (v, b, j) = true
  /\ PriorityQueue.entry_leb (v, b, j) (v, a, i) = false.
Proof.
  intros Hab. unfold PriorityQueue.entry_leb. rewrite Z.ltb_irrefl.
  replace (a <? b)%N with true by (symmetry; apply N.ltb_lt; exact Hab).
  replace (b <? a)%N with false by (symmetry; apply N.ltb_ge; lia).
  split; reflexivity.
Qed.

(** Two dispatchable entries and two free workers: both are submitted, in
    the order of the queue. *)
Lemma drain_two (p : TaskPriority) (now : datetime) (s : t)
      (v1 v2 : Z) (ts1 ts2 : datetime) (id1 id2 : string) (t1 t2 : BaseTask.t) :
  (Dict.len (running_tasks s) + 2 <= max_workers s)%nat ->
  Dict.get id1 (tasks s) = Some t1 ->
  Dict.get id2 (tasks s) = Some t2 ->
  BaseTask.dependencies (BaseTask.config t1) = [] ->
  BaseTask.dependencies (BaseTask.config t2) = [] ->
  submitted (drain p now [(v1, ts1, id1); (v2, ts2, id2)] s)
  = submitted s ++ [id1; id2].
Proof.
  intros Hcap Hg1 Hg2 Hd1 Hd2.
  assert (Hdep1 : forall s0, _dependencies_completed s0 t1 = true)
    by (intros; unfold _dependencies_completed; now rewrite Hd1).
  assert (Hdep2 : forall s0, _dependencies_completed s0 t2 = true)
    by (intros; unfold _dependencies_completed; now rewrite Hd2).
  cbn [drain].
  replace (Nat.ltb (Dict.len (running_tasks s)) (max_workers s)) with true
    by (symmetry; apply Nat.ltb_lt; lia).
  rewrite Hg1, Hdep1. cbn [negb].
  change (max_workers (submit id1 s)) with (max_workers s).
  change (tasks (submit id1 s)) with (tasks s).
  change (running_tasks (submit id1 s))
    with (Dict.set id1 Future.PENDING_ (running_tasks s)).
  replace (Nat.ltb (Dict.len (Dict.set id1 Future.PENDING_ (running_tasks s)))
                   (max_workers s)) with true
    by (symmetry; apply Nat.ltb_lt;
        pose proof (set_len_le id1 Future.PENDING_ (running_tasks s)); lia).
  rewrite Hg2, Hdep2. cbn [negb].
  destruct p; simpl; now rewrite <- app_assoc.
Qed.

End OrderFacts.

(** The gate, as [_dependencies_completed] computes it: it lets a task
    through exactly when each of its dependencies either is still in
    [tasks] with status COMPLETED, or is no longer in [tasks] and has an
    entry in [completed_tasks].  A dependency that is still in [tasks]
    hides whatever [completed_tasks] holds for it. *)
Theorem dependencies_completed_iff (s : TaskScheduler.t) (task : BaseTask.t) :
  TaskScheduler._dependencies_completed s task = true <->
  forall dep, In dep (BaseTask.dependencies (BaseTask.config task)) ->
    match Dict.get dep (TaskScheduler.tasks s) with
    | Some dep_task => BaseTask.status dep_task = COMPLETED
    | None => Dict.mem dep (TaskScheduler.completed_tasks s) = true
    end.
Proof.
  apply deps_completed_iff.
Qed.

(** Strict priority: with exactly one worker free and a dispatchable task
    at the head of the CRITICAL queue, one turn over the queues submits
    that task and nothing else, whatever waits in the other queues, which
    are left as they are. *)
Theorem sweep_serves_critical_first
        (now : datetime) (s : TaskScheduler.t)
        (v : Z) (ts : datetime) (id : string) (rest : PriorityQueue.t)
        (task : BaseTask.t) :
  TaskScheduler.stop_event s = false ->
  TaskScheduler.queue_critical s = (v, ts, id) :: rest ->
  Dict.get id (TaskScheduler.tasks s) = Some task ->
  TaskScheduler._dependencies_completed s task = true ->
  Dict.mem id (TaskScheduler.running_tasks s) = false ->
  S (Dict.len (TaskScheduler.running_tasks s)) = TaskScheduler.max_workers s ->
  TaskScheduler.submitted (TaskScheduler.sweep now s)
  = TaskScheduler.submitted s ++ [id]
  /\ TaskScheduler.queue_critical (TaskScheduler.sweep now s) = rest
  /\ TaskScheduler.queue_high (TaskScheduler.sweep now s) = TaskScheduler.queue_high s
  /\ TaskScheduler.queue_normal (TaskScheduler.sweep now s) = TaskScheduler.queue_normal s
  /\ TaskScheduler.queue_low (TaskScheduler.sweep now s) = TaskScheduler.queue_low s.
Proof.
  intros Hstop Hq Hg Hd Hr Hcap.
  set (s1 := TaskScheduler.set_queue CRITICAL rest (TaskScheduler.submit id s)).
  assert (Hfull : (TaskScheduler.max_workers s1
                   <= Dict.len (TaskScheduler.running_tasks s1))%nat).
  { subst s1. simpl. rewrite len_set_fresh by exact Hr. lia. }
  assert (H1 : TaskScheduler._process_priority_queue CRITICAL now s = s1).
  { unfold TaskScheduler._process_priority_queue. simpl. rewrite Hq. simpl.
    replace (Nat.ltb (Dict.len (TaskScheduler.running_tasks s))
                     (TaskScheduler.max_workers s)) with true
      by (symmetry; apply Nat.ltb_lt; lia).
    rewrite Hg, Hd. simpl. apply drain_full. simpl.
    rewrite len_set_fresh by exact Hr. lia. }
  assert (Hs1 : TaskScheduler.stop_event s1 = false) by (subst s1; exact Hstop).
  assert (Hsweep : TaskScheduler.sweep now s = s1).
  { unfold TaskScheduler.sweep. simpl. rewrite Hstop, H1, Hs1.
    rewrite (process_full HIGH now s1 Hfull), Hs1.
    rewrite (process_full NORMAL now s1 Hfull), Hs1.
    apply (process_full LOW now s1 Hfull). }
  rewrite Hsweep. subst s1. simpl. repeat split.
Qed.

Lemma sweep_serves_critical_first_witness :
  TaskScheduler.submitted
    (TaskScheduler.sweep 5
       (TaskScheduler.mk 1 [(4%Z, 2%N, "X")] [] [(2%Z, 1%N, "t1")] [] false
          [("X", Sample.taskX); ("t1", Sample.fresh)] [] []
          (Stats.mk 2 0 0 0 0) false []))
  = TaskScheduler.submitted
      (TaskScheduler.mk 1 [(4%Z, 2%N, "X")] [] [(2%Z, 1%N, "t1")] [] false
         [("X", Sample.taskX); ("t1", Sample.fresh)] [] []
         (Stats.mk 2 0 0 0 0) false []) ++ ["X"]
  /\ TaskScheduler.queue_critical
       (TaskScheduler.sweep 5
          (TaskScheduler.mk 1 [(4%Z, 2%N, "X")] [] [(2%Z, 1%N, "t1")] [] false
             [("X", Sample.taskX); ("t1", Sample.fresh)] [] []
             (Stats.mk 2 0 0 0 0) false [])) = []
  /\ TaskScheduler.queue_high
       (TaskScheduler.sweep 5
          (TaskScheduler.mk 1 [(4%Z, 2%N, "X")] [] [(2%Z, 1%N, "t1")] [] false
             [("X", Sample.taskX); ("t1", Sample.fresh)] [] []
             (Stats.mk 2 0 0 0 0) false []))
     = TaskScheduler.queue_high
         (TaskScheduler.mk 1 [(4%Z, 2%N, "X")] [] [(2%Z, 1%N, "t1")] [] false
            [("X", Sample.taskX); ("t1", Sample.fresh)] [] []
            (Stats.mk 2 0 0 0 0) false [])
  /\ TaskScheduler.queue_normal
       (TaskScheduler.sweep 5
          (TaskScheduler.mk 1 [(4%Z, 2%N, "X")] [] [(2%Z, 1%N, "t1")] [] false
             [("X", Sample.taskX); ("t1", Sample.fresh)] [] []
             (Stats.mk 2 0 0 0 0) false []))
     = TaskScheduler.queue_normal
         (TaskScheduler.mk 1 [(4%Z, 2%N, "X")] [] [(2%Z, 1%N, "t1")] [] false
            [("X", Sample.taskX); ("t1", Sample.fresh)] [] []
            (Stats.mk 2 0 0 0 0) false [])
  /\ TaskScheduler.queue_low
       (TaskScheduler.sweep 5
          (TaskScheduler.mk 1 [(4%Z, 2%N, "X")] [] [(2%Z, 1%N, "t1")] [] false
             [("X", Sample.taskX); ("t1", Sample.fresh)] [] []
             (Stats.mk 2 0 0 0 0) false []))
     = TaskScheduler.queue_low
         (TaskScheduler.mk 1 [(4%Z, 2%N, "X")] [] [(2%Z, 1%N, "t1")] [] false
            [("X", Sample.taskX); ("t1", Sample.fresh)] [] []
            (Stats.mk 2 0 0 0 0) false []).
Proof.
  apply (sweep_serves_critical_first 5
           (TaskScheduler.mk 1 [(4%Z, 2%N, "X")] [] [(2%Z, 1%N, "t1")] [] false
              [("X", Sample.taskX); ("t1", Sample.fresh)] [] []
              (Stats.mk 2 0 0 0 0) false [])
           4%Z 2%N "X" [] Sample.taskX); reflexivity.
Defined.

(** First in, first out within a priority: two tasks of the same priority
    without dependencies, put on an empty queue with time stamps [a < b],
    are submitted in the order of their time stamps when two workers are
    free, whichever of the two [add_task] calls came first. *)
Theorem same_priority_dispatched_by_timestamp
        (s : TaskScheduler.t) (t1 t2 : BaseTask.t) (a b now : datetime) :
  TaskScheduler._lock s = false ->
  BaseTask.priority (BaseTask.config t2) = BaseTask.priority (BaseTask.config t1) ->
  TaskScheduler.task_queues s (BaseTask.priority (BaseTask.config t1)) = [] ->
  BaseTask.dependencies (BaseTask.config t1) = [] ->
  BaseTask.dependencies (BaseTask.config t2) = [] ->
  BaseTask.task_id (BaseTask.config t1) <> BaseTask.task_id (BaseTask.config t2) ->
  (a < b)%N ->
  (Dict.len (TaskScheduler.running_tasks s) + 2 <= TaskScheduler.max_workers s)%nat ->
  TaskScheduler.submitted
    (TaskScheduler._process_priority_queue (BaseTask.priority (BaseTask.config t1)) now
       (state_of (TaskScheduler.add_task t2 b
                    (state_of (TaskScheduler.add_task t1 a s)))))
  = TaskScheduler.submitted s
      ++ [BaseTask.task_id (BaseTask.config t1); BaseTask.task_id (BaseTask.config t2)]
  /\ TaskScheduler.submitted
       (TaskScheduler._process_priority_queue (BaseTask.priority (BaseTask.config t1)) now
          (state_of (TaskScheduler.add_task t1 a
                       (state_of (TaskScheduler.add_task t2 b s)))))
     = TaskScheduler.submitted s
         ++ [BaseTask.task_id (BaseTask.config t1); BaseTask.task_id (BaseTask.config t2)].
Proof.
  intros Hl Hp Hq Hd1 Hd2 Hne Hab Hcap.
  assert (Hnd1 : forall s0 dep, In dep (BaseTask.dependencies (BaseTask.config t1)) ->
            Dict.mem dep (TaskScheduler.tasks s0) = true
            \/ Dict.mem dep (TaskScheduler.completed_tasks s0) = true)
    by (rewrite Hd1; intros ? ? []).
  assert (Hnd2 : forall s0 dep, In dep (BaseTask.dependencies (BaseTask.config t2)) ->
            Dict.mem dep (TaskScheduler.tasks s0) = true
            \/ Dict.mem dep (TaskScheduler.completed_tasks s0) = true)
    by (rewrite Hd2; intros ? ? []).
  set (p := BaseTask.priority (BaseTask.config t1)) in *.
  set (id1 := BaseTask.task_id (BaseTask.config t1)) in *.
  set (id2 := BaseTask.task_id (BaseTask.config t2)) in *.
  destruct (entry_leb_by_time (priority_value p) a b id1 id2 Hab) as [Hle Hge].
  assert (Hne' : id2 <> id1) by congruence.
  split.
  - rewrite (add_task_returns s t1 a Hl (Hnd1 s)). cbn [state_of].
    fold p id1.
    erewrite add_task_returns
      by first [ apply Hnd2 | destruct p; exact Hl ].
    cbn [state_of]. rewrite Hp. fold id2.
    unfold TaskScheduler._process_priority_queue.
    match goal with
    | |- TaskScheduler.submitted (TaskScheduler.drain p now ?q ?s2) = _ =>
        assert (Eq : q = [(priority_value p, a, id1); (priority_value p, b, id2)])
          by (destruct s, p; simpl in *; subst; simpl; rewrite Hle; reflexivity);
        assert (Es : TaskScheduler.submitted s2 = TaskScheduler.submitted s)
          by (destruct s, p; reflexivity);
        assert (Er : TaskScheduler.running_tasks s2 = TaskScheduler.running_tasks s)
          by (destruct s, p; reflexivity);
        assert (Em : TaskScheduler.max_workers s2 = TaskScheduler.max_workers s)
          by (destruct s, p; reflexivity);
        assert (Et : TaskScheduler.tasks s2
                     = Dict.set id2 t2 (Dict.set id1 t1 (TaskScheduler.tasks s)))
          by (destruct s, p; reflexivity);
        rewrite Eq;
        rewrite (drain_two p now s2 _ _ _ _ id1 id2 t1 t2)
    end.
    + now rewrite Es.
    + rewrite Er, Em. exact Hcap.
    + rewrite Et, get_set_other by exact Hne. apply get_set_same.
    + rewrite Et. apply get_set_same.
    + exact Hd1.
    + exact Hd2.
  - rewrite (add_task_returns s t2 b Hl (Hnd2 s)). cbn [state_of].
    rewrite Hp. fold p id2.
    erewrite add_task_returns
      by first [ apply Hnd1 | destruct p; exact Hl ].
    cbn [state_of]. fold p id1.
    unfold TaskScheduler._process_priority_queue.
    match goal with
    | |- TaskScheduler.submitted (TaskScheduler.drain p now ?q ?s2) = _ =>
        assert (Eq : q = [(priority_value p, a, id1); (priority_value p, b, id2)])
          by (destruct s, p; simpl in *; subst; simpl; rewrite Hge; reflexivity);
        assert (Es : TaskScheduler.submitted s2 = TaskScheduler.submitted s)
          by (destruct s, p; reflexivity);
        assert (Er : TaskScheduler.running_tasks s2 = TaskScheduler.running_tasks s)
          by (destruct s, p; reflexivity);
        assert (Em : TaskScheduler.max_workers s2 = TaskScheduler.max_workers s)
          by (destruct s, p; reflexivity);
        assert (Et : TaskScheduler.tasks s2
                     = Dict.set id1 t1 (Dict.set id2 t2 (TaskScheduler.tasks s)))
          by (destruct s, p; reflexivity);
        rewrite Eq;
        rewrite (drain_two p now s2 _ _ _ _ id1 id2 t1 t2)
    end.
    + now rewrite Es.
    + rewrite Er, Em. exact Hcap.
    + rewrite Et. apply get_set_same.
    + rewrite Et, get_set_other by exact Hne'. apply get_set_same.
    + exact Hd1.
    + exact Hd2.
Qed.

Lemma same_priority_dispatched_by_timestamp_witness :
  TaskScheduler.submitted
    (TaskScheduler._process_priority_queue
       (BaseTask.priority (BaseTask.config Sample.taskX)) 9
       (state_of (TaskScheduler.add_task Sample.fresh 7
                    (state_of (TaskScheduler.add_task Sample.taskX 3
                                 (TaskScheduler.init 2))))))
  = TaskScheduler.submitted (TaskScheduler.init 2)
      ++ [BaseTask.task_id (BaseTask.config Sample.taskX);
          BaseTask.task_id (BaseTask.config Sample.fresh)]
  /\ TaskScheduler.submitted
       (TaskScheduler._process_priority_queue
          (BaseTask.priority (BaseTask.config Sample.taskX)) 9
          (state_of (TaskScheduler.add_task Sample.taskX 3
                       (state_of (TaskScheduler.add_task Sample.fresh 7
                                    (TaskScheduler.init 2))))))
     = TaskScheduler.submitted (TaskScheduler.init 2)
         ++ [BaseTask.task_id (BaseTask.config Sample.taskX);
             BaseTask.task_id (BaseTask.config Sample.fresh)].
Proof.
  apply (same_priority_dispatched_by_timestamp (TaskScheduler.init 2)
           Sample.taskX Sample.fresh 3 7 9);
    first [ reflexivity | discriminate | simpl; lia ].
Defined.

(** ** The running average on completed results *)

